(** * MultiAgent-Accelerator: travel agent, MCP tool servers and queue scripts

    A shallow embedding of the Python sources
      - [mcp_servers/activity_mcp/server.py]
      - [mcp_servers/currency_mcp/server.py]
      - [agents/travel_agent/main.py]
      - [tests/test_servicebus.py], [scripts/get-async-responses.py]
    together with the properties the specification states about them.

    Python strings are kept as [string] holding their UTF-8 encoding;
    concatenation and equality agree with Python's on that encoding.
    Functions that can raise return an [outcome]. *)

From Stdlib Require Import ZArith QArith Qabs String Ascii List DecimalString Sorted.
From stdpp Require Import gmap strings list fin_maps.

Open Scope Z_scope.
Set Warnings "-register-all".

(** ** Python runtime: exceptions, outcomes, strings, sequences *)

Module Py.

(** The exceptions the sources distinguish: [httpx.HTTPStatusError], which
    carries the response's status code and text, and every other subclass
    of [Exception], kept with its class name and its [str()]. *)
Inductive exn : Type :=
| HTTPStatusError (msg : string) (status_code : Z) (text : string)
| Exception (cls : string) (msg : string).

Inductive outcome (A : Type) : Type :=
| Ret (a : A)
| Raise (e : exn).
Arguments Ret {A} a.
Arguments Raise {A} e.

#[export] Instance outcome_ret : MRet outcome := fun A a => Ret a.
#[export] Instance outcome_bind : MBind outcome := fun A B f m =>
  match m with
  | Ret a => f a
  | Raise e => Raise e
  end.

(** [str(e)] of a caught exception. *)
Definition str_exn (e : exn) : string :=
  match e with
  | HTTPStatusError msg _ _ => msg
  | Exception _ msg => msg
  end.

(** A [for] loop whose body updates the loop state and may raise. *)
Fixpoint for_each {A S : Type} (body : A -> S -> outcome S) (l : list A) (s : S)
  : outcome S :=
  match l with
  | [] => Ret s
  | x :: l' => s' ← body x s; for_each body l' s'
  end.

Definition NL : string := String "010"%char EmptyString.

(** [str(n)] of a Python int. *)
Definition str_int (z : Z) : string := NilZero.string_of_int (Z.to_int z).

(** [range(lo, hi)]. *)
Definition py_range (lo hi : Z) : list Z :=
  map (fun i => lo + Z.of_nat i) (seq 0 (Z.to_nat (hi - lo))).

(** [l[i]]: negative indices count from the end, out of range raises. *)
Definition py_getitem {A : Type} (l : list A) (i : Z) : outcome A :=
  let n := Z.of_nat (length l) in
  let j := if i <? 0 then i + n else i in
  if (0 <=? j) && (j <? n) then
    match l !! Z.to_nat j with
    | Some x => Ret x
    | None => Raise (Exception "IndexError" "list index out of range")
    end
  else Raise (Exception "IndexError" "list index out of range").

(** [enumerate(l, start)]. *)
Fixpoint enumerate {A : Type} (start : Z) (l : list A) : list (Z * A) :=
  match l with
  | [] => []
  | x :: l' => (start, x) :: enumerate (start + 1) l'
  end.

(** [str.lower], [str.upper] and [str.title] on ASCII text, where they need no
    Unicode tables; the examples below run the tools with them. *)
Definition is_upper (c : ascii) : bool := (("A" <=? c) && (c <=? "Z"))%char.
Definition is_lower (c : ascii) : bool := (("a" <=? c) && (c <=? "z"))%char.
Definition to_lower (c : ascii) : ascii :=
  if is_upper c then ascii_of_nat (nat_of_ascii c + 32) else c.
Definition to_upper (c : ascii) : ascii :=
  if is_lower c then ascii_of_nat (nat_of_ascii c - 32) else c.

Fixpoint ascii_lower (s : string) : string :=
  match s with
  | EmptyString => EmptyString
  | String c s' => String (to_lower c) (ascii_lower s')
  end.

Fixpoint ascii_upper (s : string) : string :=
  match s with
  | EmptyString => EmptyString
  | String c s' => String (to_upper c) (ascii_upper s')
  end.

(** [previous_is_cased] is the flag CPython's [title] keeps while scanning. *)
Fixpoint ascii_title_from (previous_is_cased : bool) (s : string) : string :=
  match s with
  | EmptyString => EmptyString
  | String c s' =>
      if is_lower c then
        String (if previous_is_cased then c else to_upper c) (ascii_title_from true s')
      else if is_upper c then
        String (if previous_is_cased then to_lower c else c) (ascii_title_from true s')
      else String c (ascii_title_from false s')
  end.

Definition ascii_title (s : string) : string := ascii_title_from false s.

(** Decoded JSON: what [response.json()] and a parsed request body hold, and
    what a JSON response carries. A [JObj] lists the items of a dict in
    insertion order, its keys pairwise distinct; [N] is the type of numbers. *)
Inductive json (N : Type) : Type :=
| JNull
| JBool (b : bool)
| JNum (n : N)
| JStr (s : string)
| JArr (l : list (json N))
| JObj (items : list (string * json N)).
Arguments JNull {N}.
Arguments JBool {N} b.
Arguments JNum {N} n.
Arguments JStr {N} s.
Arguments JArr {N} l.
Arguments JObj {N} items.

(** [d.get(key)] on the items of a dict. *)
Fixpoint dict_get {V : Type} (key : string) (items : list (string * V)) : option V :=
  match items with
  | [] => None
  | (k, v) :: items' => if String.eqb k key then Some v else dict_get key items'
  end.

(** [sub in s] on strings. *)
Fixpoint str_contains (sub s : string) : bool :=
  String.prefix sub s ||
  match s with
  | EmptyString => false
  | String _ s' => str_contains sub s'
  end.

(** What the sources use of the interpreter and is not written in them:
    numbers ([int] and [float] values with true division and fixed-point
    formatting), [str()] of a decoded value that is not a string, the text
    of the interpreter's own error messages, and [str.upper]. *)
Class Runtime : Type := {
  num : Type;
  int_zero : num;                           (* the literal [0] *)
  num_of_bool : bool -> num;                (* [bool] is a subclass of [int] *)
  ne_zero : num -> bool;                    (* [x != 0] *)
  truediv : num -> num -> outcome num;      (* [x / y] *)
  format_f : nat -> num -> outcome string;  (* [format(x, ".<d>f")] *)
  str_value : json num -> string;           (* [str(v)], [v] not a string *)
  interp_msg : string -> json num -> string;(* message of a failed operation *)
  upper : string -> string
}.

End Py.
Import Py.

(** ** [mcp_servers/activity_mcp/server.py] *)

Module Activity.

(** A float literal with one fractional digit, as the ratings of the sample
    data are written; [str()] of such a float prints the literal back. *)
Record rating_lit : Type := Rating { units : Z; tenths : Z }.

Definition str_rating (r : rating_lit) : string :=
  str_int (units r) +:+ "." +:+ str_int (tenths r).

Record restaurant : Type := Restaurant
  { r_name : string; r_cuisine : string; r_price : string; r_rating : rating_lit }.

Record attraction : Type := Attraction
  { a_name : string; a_type : string; a_duration : string; a_price : string }.

Definition RESTAURANT_DB : gmap string (list restaurant) :=
  <["paris" :=
     [ Restaurant "Le Comptoir du Relais" "French Bistro" "€€€" (Rating 4 5);
       Restaurant "L'As du Fallafel" "Middle Eastern" "€" (Rating 4 7);
       Restaurant "Breizh Café" "Creperie" "€€" (Rating 4 6) ]]>
  (<["tokyo" :=
     [ Restaurant "Sukiyabashi Jiro" "Sushi" "€€€€" (Rating 4 9);
       Restaurant "Ichiran Ramen" "Ramen" "€" (Rating 4 5);
       Restaurant "Tsukiji Market" "Seafood" "€€" (Rating 4 7) ]]>
  (<["rome" :=
     [ Restaurant "Roscioli" "Italian Deli" "€€€" (Rating 4 6);
       Restaurant "Pizzarium" "Pizza" "€" (Rating 4 8);
       Restaurant "Trattoria Da Enzo" "Traditional Roman" "€€" (Rating 4 7) ]]>
  ∅)).

Definition ATTRACTIONS_DB : gmap string (list attraction) :=
  <["paris" :=
     [ Attraction "Eiffel Tower" "Monument" "2-3 hours" "€26";
       Attraction "Louvre Museum" "Museum" "3-4 hours" "€17";
       Attraction "Notre-Dame Cathedral" "Historic Site" "1-2 hours" "Free";
       Attraction "Sacré-Cœur" "Church" "1-2 hours" "Free" ]]>
  (<["tokyo" :=
     [ Attraction "Senso-ji Temple" "Temple" "1-2 hours" "Free";
       Attraction "Tokyo Skytree" "Observation Tower" "2-3 hours" "¥2100";
       Attraction "Meiji Shrine" "Shrine" "1-2 hours" "Free";
       Attraction "Shibuya Crossing" "Landmark" "30 min" "Free" ]]>
  (<["rome" :=
     [ Attraction "Colosseum" "Historic Site" "2-3 hours" "€18";
       Attraction "Vatican Museums" "Museum" "3-4 hours" "€17";
       Attraction "Trevi Fountain" "Landmark" "30 min" "Free";
       Attraction "Roman Forum" "Archaeological Site" "2 hours" "€16" ]]>
  ∅)).

(** The four blocks a day of the itinerary can hold; each line is one
    [itinerary += ...] of the source. *)
Definition add_visit (heading : string) (attr : attraction) (itinerary : string) : string :=
  let itinerary := itinerary +:+ (heading +:+ NL) in
  let itinerary := itinerary +:+
    ("- Visit: " +:+ a_name attr +:+ " (" +:+ a_type attr +:+ ")" +:+ NL) in
  let itinerary := itinerary +:+ ("- Duration: " +:+ a_duration attr +:+ NL) in
  itinerary +:+ ("- Price: " +:+ a_price attr +:+ NL +:+ NL).

Definition add_meal (heading : string) (rest : restaurant) (itinerary : string) : string :=
  let itinerary := itinerary +:+ (heading +:+ NL) in
  let itinerary := itinerary +:+ ("- Restaurant: " +:+ r_name rest +:+ NL) in
  let itinerary := itinerary +:+ ("- Cuisine: " +:+ r_cuisine rest +:+ NL) in
  let itinerary := itinerary +:+ ("- Price Range: " +:+ r_price rest +:+ NL) in
  itinerary +:+ ("- Rating: " +:+ str_rating (r_rating rest) +:+ "/5" +:+ NL +:+ NL).

(** [if len(xs) > i: x = xs[i]; itinerary = add x itinerary]. *)
Definition if_longer {A : Type} (xs : list A) (i : Z)
    (add : A -> string -> string) (itinerary : string) : outcome string :=
  if Z.of_nat (length xs) >? i then
    x ← py_getitem xs i; mret (add x itinerary)
  else mret itinerary.

(** The body of the [for day in range(...)] loop of [create_itinerary]. *)
Definition day_body (attractions : list attraction) (restaurants : list restaurant)
    (day : Z) (itinerary : string) : outcome string :=
  let itinerary := itinerary +:+ ("## Day " +:+ str_int day +:+ NL +:+ NL) in
  itinerary ← if_longer attractions ((day - 1) * 3)
                 (add_visit "**Morning (9:00 AM - 12:00 PM)**") itinerary;
  itinerary ← if_longer restaurants ((day - 1) * 2)
                 (add_meal "**Lunch (12:30 PM - 2:00 PM)**") itinerary;
  itinerary ← if_longer attractions ((day - 1) * 3 + 1)
                 (add_visit "**Afternoon (2:30 PM - 5:30 PM)**") itinerary;
  if_longer restaurants ((day - 1) * 2 + 1)
    (add_meal "**Dinner (7:00 PM - 9:00 PM)**") itinerary.

Section Tools.

(** [str.lower] and [str.title] of the Python runtime (Unicode aware). *)
Variable lower : string -> string.
Variable title : string -> string.

Definition itinerary_header (destination : string) (duration_days : Z) (budget : string)
  : string :=
  "# " +:+ title destination +:+ " Itinerary (" +:+ str_int duration_days +:+
  " days - " +:+ title budget +:+ " Budget)" +:+ NL +:+ NL.

Definition create_itinerary (destination : string) (duration_days : Z) (budget : string)
  : outcome string :=
  let dest_lower := lower destination in
  match ATTRACTIONS_DB !! dest_lower with
  | None =>
      mret ("No data available for " +:+ destination +:+
            ". Available destinations: Paris, Tokyo, Rome")
  | Some attractions =>
      match RESTAURANT_DB !! dest_lower with
      | None => Raise (Exception "KeyError" dest_lower)
      | Some restaurants =>
          let itinerary := itinerary_header destination duration_days budget in
          for_each (day_body attractions restaurants)
                   (py_range 1 (Z.min (duration_days + 1) 4)) itinerary
      end
  end.

Definition restaurant_entry (ir : Z * restaurant) (result : string) : string :=
  let '(i, rest) := ir in
  let result := result +:+ ("## " +:+ str_int i +:+ ". " +:+ r_name rest +:+ NL) in
  let result := result +:+ ("- **Cuisine**: " +:+ r_cuisine rest +:+ NL) in
  let result := result +:+ ("- **Price Range**: " +:+ r_price rest +:+ NL) in
  result +:+ ("- **Rating**: " +:+ str_rating (r_rating rest) +:+ "/5 ⭐" +:+ NL +:+ NL).

Definition suggest_restaurants (location cuisine_type budget : string) : string :=
  let loc_lower := lower location in
  match RESTAURANT_DB !! loc_lower with
  | None =>
      "No restaurant data for " +:+ location +:+ ". Available cities: Paris, Tokyo, Rome"
  | Some restaurants =>
      let result := "# Restaurant Recommendations in " +:+ title location +:+ NL +:+ NL in
      fold_left (fun result ir => restaurant_entry ir result) (enumerate 1 restaurants) result
  end.

Definition attraction_entry (ia : Z * attraction) (result : string) : string :=
  let '(i, attr) := ia in
  let result := result +:+ ("## " +:+ str_int i +:+ ". " +:+ a_name attr +:+ NL) in
  let result := result +:+ ("- **Type**: " +:+ a_type attr +:+ NL) in
  let result := result +:+ ("- **Recommended Duration**: " +:+ a_duration attr +:+ NL) in
  result +:+ ("- **Entrance Fee**: " +:+ a_price attr +:+ NL +:+ NL).

Definition find_attractions (location attraction_type : string) : string :=
  let loc_lower := lower location in
  match ATTRACTIONS_DB !! loc_lower with
  | None =>
      "No attraction data for " +:+ location +:+ ". Available cities: Paris, Tokyo, Rome"
  | Some attractions =>
      let result := "# Attractions in " +:+ title location +:+ NL +:+ NL in
      fold_left (fun result ia => attraction_entry ia result) (enumerate 1 attractions) result
  end.

(** [plan_day_trip]: the blocks it appends, one [plan += ...] per line. *)
Definition add_trip_visit (attr : attraction) (plan : string) : string :=
  let plan := plan +:+ ("**Visit**: " +:+ a_name attr +:+ NL) in
  let plan := plan +:+ ("- Type: " +:+ a_type attr +:+ NL) in
  let plan := plan +:+ ("- Duration: " +:+ a_duration attr +:+ NL) in
  plan +:+ ("- Cost: " +:+ a_price attr +:+ NL +:+ NL).

Definition add_trip_lunch (rest : restaurant) (plan : string) : string :=
  let plan := plan +:+ ("**Dining**: " +:+ r_name rest +:+ NL) in
  let plan := plan +:+ ("- Cuisine: " +:+ r_cuisine rest +:+ NL) in
  plan +:+ ("- Budget: " +:+ r_price rest +:+ NL +:+ NL).

Definition add_trip_dinner (rest : restaurant) (plan : string) : string :=
  let plan := plan +:+ ("**Dinner**: " +:+ r_name rest +:+ NL) in
  let plan := plan +:+ ("- Cuisine: " +:+ r_cuisine rest +:+ NL) in
  plan +:+ ("- Budget: " +:+ r_price rest +:+ NL).

(** [if xs: x = xs[0]; plan = add x plan]. *)
Definition if_nonempty {A : Type} (xs : list A)
    (add : A -> string -> string) (plan : string) : outcome string :=
  match xs with
  | [] => mret plan
  | _ => x ← py_getitem xs 0; mret (add x plan)
  end.

(** The four sections of [plan_day_trip], appended to the plan so far. *)
Definition trip_sections (attractions : list attraction) (restaurants : list restaurant)
    (plan : string) : outcome string :=
  let plan := plan +:+ ("## Morning Adventure (9:00 AM - 12:00 PM)" +:+ NL) in
  plan ← if_nonempty attractions add_trip_visit plan;
  let plan := plan +:+ ("## Lunch Break (12:30 PM - 2:00 PM)" +:+ NL) in
  plan ← if_nonempty restaurants add_trip_lunch plan;
  let plan := plan +:+ ("## Afternoon Exploration (2:30 PM - 6:00 PM)" +:+ NL) in
  plan ← if_longer attractions 1 (fun attr => add_trip_visit attr) plan;
  let plan := plan +:+ ("## Evening Experience (7:00 PM - 9:00 PM)" +:+ NL) in
  if_longer restaurants 1 (fun rest => add_trip_dinner rest) plan.

Definition plan_day_trip (start_location interests : string) : outcome string :=
  let loc_lower := lower start_location in
  match ATTRACTIONS_DB !! loc_lower with
  | None =>
      mret ("No data for " +:+ start_location +:+ ". Available cities: Paris, Tokyo, Rome")
  | Some attractions =>
      match RESTAURANT_DB !! loc_lower with
      | None => Raise (Exception "KeyError" loc_lower)
      | Some restaurants =>
          let plan := "# Day Trip Plan: " +:+ title start_location +:+ NL in
          let plan := plan +:+ ("**Focus**: " +:+ title interests +:+ NL +:+ NL) in
          trip_sections attractions restaurants plan
      end
  end.

End Tools.

End Activity.

(** A step that only ever appends to the text it is given. *)
Definition appender (f : string -> outcome string) : Prop :=
  forall acc, f acc = s ← f EmptyString; mret (acc +:+ s).

(** ** [mcp_servers/currency_mcp/server.py] *)

Module Currency.

Definition FRANKFURTER_API : string := "https://api.frankfurter.app".

Section Tools.

Context {rt : Runtime}.

(** The outcome of the [async with httpx.AsyncClient(...)] block: the decoded
    body, or what [client.get], [raise_for_status] or [response.json] raised.
    Only [raise_for_status] raises [HTTPStatusError]. *)
Variable http_get : string -> list (string * json num) -> outcome (json num).

Definition try_except {A : Type} (body : outcome A) (handler : exn -> outcome A)
  : outcome A :=
  match body with
  | Ret a => Ret a
  | Raise e => handler e
  end.

(** [key in container]. *)
Definition py_in (key : string) (container : json num) : outcome bool :=
  match container with
  | JObj items => mret (bool_decide (is_Some (dict_get key items)))
  | JArr l =>
      mret (existsb (fun v => match v with JStr s => String.eqb s key | _ => false end) l)
  | JStr s => mret (str_contains key s)
  | v => Raise (Exception "TypeError" (interp_msg "in" v))
  end.

(** [container[key]] with a string key. *)
Definition py_subscript (container : json num) (key : string) : outcome (json num) :=
  match container with
  | JObj items =>
      match dict_get key items with
      | Some v => mret v
      | None => Raise (Exception "KeyError" ("'" +:+ key +:+ "'"))
      end
  | v => Raise (Exception "TypeError" (interp_msg "subscript" v))
  end.

(** [data.get(key, default)]. *)
Definition py_get (data : json num) (key : string) (default : json num)
  : outcome (json num) :=
  match data with
  | JObj items => mret (from_option id default (dict_get key items))
  | v => Raise (Exception "AttributeError" (interp_msg "get" v))
  end.

(** [f"{v}"]. *)
Definition py_format (v : json num) : string :=
  match v with
  | JStr s => s
  | v => str_value v
  end.

(** [f"{v:.<d>f}"]. *)
Definition py_format_f (d : nat) (v : json num) : outcome string :=
  match v with
  | JNum n => format_f d n
  | JBool b => format_f d (num_of_bool b)
  | JStr s => Raise (Exception "ValueError" (interp_msg "format" v))
  | v => Raise (Exception "TypeError" (interp_msg "format" v))
  end.

(** [v / amount]. *)
Definition py_truediv (v : json num) (amount : num) : outcome num :=
  match v with
  | JNum n => truediv n amount
  | JBool b => truediv (num_of_bool b) amount
  | v => Raise (Exception "TypeError" (interp_msg "truediv" v))
  end.

(** ["rates" not in data or currency not in data["rates"]]. *)
Definition rate_missing (data : json num) (currency : string) : outcome bool :=
  has_rates ← py_in "rates" data;
  if negb has_rates then mret true
  else
    rates ← py_subscript data "rates";
    has_currency ← py_in currency rates;
    mret (negb has_currency).

Definition get_exchange_rate_try (currency_from currency_to date : string)
  : outcome string :=
  let url := FRANKFURTER_API +:+ "/" +:+ date in
  let params := [("from", JStr (upper currency_from)); ("to", JStr (upper currency_to))] in
  data ← http_get url params;
  missing ← rate_missing data (upper currency_to);
  if missing : bool then
    mret ("Could not retrieve rate for " +:+ currency_from +:+ " to " +:+ currency_to)
  else
    rates ← py_subscript data "rates";
    rate ← py_subscript rates (upper currency_to);
    rate_date ← py_get data "date" (JStr date);
    rate_text ← py_format_f 4 rate;
    mret ("Exchange rate on " +:+ py_format rate_date +:+ ": " +:+
          "1 " +:+ upper currency_from +:+ " = " +:+ rate_text +:+ " " +:+
          upper currency_to).

Definition get_exchange_rate (currency_from currency_to date : string) : outcome string :=
  try_except (get_exchange_rate_try currency_from currency_to date)
    (fun e =>
       match e with
       | HTTPStatusError _ status_code text =>
           mret ("HTTP error: " +:+ str_int status_code +:+ " - " +:+ text)
       | e => mret ("Error fetching exchange rate: " +:+ str_exn e)
       end).

Definition convert_currency_try (amount : num) (currency_from currency_to date : string)
  : outcome string :=
  let url := FRANKFURTER_API +:+ "/" +:+ date in
  let params := [("amount", JNum amount);
                 ("from", JStr (upper currency_from));
                 ("to", JStr (upper currency_to))] in
  data ← http_get url params;
  missing ← rate_missing data (upper currency_to);
  if missing : bool then
    mret ("Could not convert " +:+ currency_from +:+ " to " +:+ currency_to)
  else
    rates ← py_subscript data "rates";
    converted_amount ← py_subscript rates (upper currency_to);
    rate ← (if ne_zero amount then py_truediv converted_amount amount
            else mret int_zero);
    conversion_date ← py_get data "date" (JStr date);
    amount_text ← format_f 2 amount;
    converted_text ← py_format_f 2 converted_amount;
    rate_text ← format_f 4 rate;
    mret ("Conversion on " +:+ py_format conversion_date +:+ ":" +:+ NL +:+
          amount_text +:+ " " +:+ upper currency_from +:+ " = " +:+
          converted_text +:+ " " +:+ upper currency_to +:+ NL +:+
          "Exchange rate: 1 " +:+ upper currency_from +:+ " = " +:+ rate_text +:+
          " " +:+ upper currency_to).

Definition convert_currency (amount : num) (currency_from currency_to date : string)
  : outcome string :=
  try_except (convert_currency_try amount currency_from currency_to date)
    (fun e =>
       match e with
       | HTTPStatusError _ status_code text =>
           mret ("HTTP error: " +:+ str_int status_code +:+ " - " +:+ text)
       | e => mret ("Error converting currency: " +:+ str_exn e)
       end).

(** [sorted(currencies.items())]: the keys of a dict are distinct, so tuples
    are ordered by key alone, by code point. *)
Fixpoint insert_by_key (kv : string * json num) (l : list (string * json num))
  : list (string * json num) :=
  match l with
  | [] => [kv]
  | kv' :: l' =>
      if String.ltb (fst kv) (fst kv') then kv :: kv' :: l'
      else kv' :: insert_by_key kv l'
  end.

Definition py_sorted (items : list (string * json num)) : list (string * json num) :=
  fold_right insert_by_key [] items.

(** [currencies.items()]. *)
Definition py_items (v : json num) : outcome (list (string * json num)) :=
  match v with
  | JObj items => mret items
  | v => Raise (Exception "AttributeError" (interp_msg "items" v))
  end.

Definition get_supported_currencies_try : outcome string :=
  let url := FRANKFURTER_API +:+ "/currencies" in
  currencies ← http_get url [];
  let result := "Supported currencies:" +:+ NL in
  items ← py_items currencies;
  mret (fold_left
          (fun result '(code, name) =>
             result +:+ ("  " +:+ code +:+ ": " +:+ py_format name +:+ NL))
          (py_sorted items) result).

Definition get_supported_currencies : outcome string :=
  try_except get_supported_currencies_try
    (fun e => mret ("Error fetching supported currencies: " +:+ str_exn e)).

(** The line [get_supported_currencies] prints for one currency, and the
    text it prints for a list of them. *)
Definition currency_line (kv : string * json num) : string :=
  "  " +:+ fst kv +:+ ": " +:+ py_format (snd kv) +:+ NL.

Fixpoint currency_lines (items : list (string * json num)) : string :=
  match items with
  | [] => EmptyString
  | kv :: items' => currency_line kv +:+ currency_lines items'
  end.

(** Lists ordered by key, as [sorted] leaves the items of a dict. *)
Definition key_le (a b : string * json num) : Prop := String.le (fst a) (fst b).

End Tools.

End Currency.

(** ** [agents/travel_agent/main.py] *)

Module TravelAgent.

(** What a route handler does: return a value or raise [HTTPException]. *)
Inductive handled (A : Type) : Type :=
| Returned (a : A)
| HTTPException (status_code : Z) (detail : string).
Arguments Returned {A} a.
Arguments HTTPException {A} status_code detail.

Record http_response (N : Type) : Type := HttpResponse
  { status : Z; content : json N }.
Arguments HttpResponse {N} status content.
Arguments status {N} h.
Arguments content {N} h.

Record TaskRequest : Type := mkTaskRequest
  { task : string; user_id : option string }.

Record TaskResponse : Type := mkTaskResponse
  { result : string; agent : string }.

Inductive method : Type := GET | POST.

Definition method_name (m : method) : string :=
  match m with
  | GET => "GET"
  | POST => "POST"
  end.

Definition method_eqb (a b : method) : bool :=
  match a, b with
  | GET, GET | POST, POST => true
  | _, _ => false
  end.

(** The handlers [main.py] registers on [app]. *)
Inductive handler : Type := h_root | h_health | h_execute_task | h_agent_card.

(** The routes [main.py] itself registers, one per [@app.get] or [@app.post]
    decorator, in source order. The routes FastAPI adds of its own are not
    among them; see [framework_answer]. *)
Definition routes : list (method * string * handler) :=
  [ (GET, "/", h_root);
    (GET, "/health", h_health);
    (POST, "/task", h_execute_task);
    (GET, "/.well-known/agent.json", h_agent_card) ].

Section Agent.

(** JSON numbers; Python objects other than [str], as the [response]
    attribute of a run result may hold one; pydantic's validation of such an
    object for a [str] field; FastAPI's account of a rejected request body. *)
Context {N : Type} {pyobj : Type}.
Variable pydantic_str : pyobj -> outcome string.
Variable validation_errors : json N -> json N.

(** What FastAPI itself answers on a path for which [main.py] registers no
    route: [FastAPI(...)] is built with its default settings, so the
    framework adds its documentation routes ([/docs], [/redoc],
    [/openapi.json], [/docs/oauth2-redirect]) and redirects a path that
    differs from a route by a trailing slash; any other path gets 404. None
    of this is written in [main.py]. *)
Variable framework_answer : method -> string -> json N -> http_response N.

(** The result of [travel_agent.run(task)]: its [response] attribute when it
    has one, and [str(result)]. *)
Record run_result : Type := RunResult
  { response : option (pyobj + string); str_result : outcome string }.

(** A [ChatAgent]: all the handlers use of it is [run]. *)
Record ChatAgent : Type := { run : string -> outcome run_result }.

(** [TaskRequest] parsed from the request body: [task] is required and a
    string, [user_id] is an optional string defaulting to ["anonymous"];
    other keys are ignored. *)
Definition parse_TaskRequest (body : json N) : option TaskRequest :=
  match body with
  | JObj items =>
      match dict_get "task" items with
      | Some (JStr t) =>
          match dict_get "user_id" items with
          | None => Some (mkTaskRequest t (Some "anonymous"))
          | Some (JStr u) => Some (mkTaskRequest t (Some u))
          | Some JNull => Some (mkTaskRequest t None)
          | Some _ => None
          end
      | _ => None
      end
  | _ => None
  end.

(** [TaskResponse(result=..., agent=...)]: pydantic validates [result]. *)
Definition TaskResponse_init (result : pyobj + string) (agent : string)
  : outcome TaskResponse :=
  match result with
  | inr s => mret (mkTaskResponse s agent)
  | inl o => s ← pydantic_str o; mret (mkTaskResponse s agent)
  end.

(** The [try] block of [execute_task]. *)
Definition execute_task_try (agent : ChatAgent) (request : TaskRequest)
  : outcome TaskResponse :=
  result ← run agent (task request);
  response_text ← match response result with
                  | Some r => mret r
                  | None => s ← str_result result; mret (inr s)
                  end;
  TaskResponse_init response_text "travel_agent".

Definition execute_task (travel_agent : option ChatAgent) (request : TaskRequest)
  : handled TaskResponse :=
  match travel_agent with
  | None => HTTPException 503 "Agent not initialized"
  | Some agent =>
      match execute_task_try agent request with
      | Ret r => Returned r
      | Raise e => HTTPException 500 ("Error executing task: " +:+ str_exn e)
      end
  end.

Definition health (travel_agent : option ChatAgent) : handled (json N) :=
  match travel_agent with
  | None => HTTPException 503 "Agent not initialized"
  | Some _ => Returned (JObj [("status", JStr "healthy")])
  end.

Definition root : handled (json N) :=
  Returned (JObj [("agent", JStr "travel_agent");
                  ("status", JStr "running");
                  ("capabilities", JArr [JStr "travel_planning";
                                         JStr "currency_exchange";
                                         JStr "itinerary_creation"]);
                  ("mcp_tools", JArr [JStr "currency_tools"; JStr "activity_tools"])]).

Definition skill (id name description : string) (examples : list string) : json N :=
  JObj [("id", JStr id);
        ("name", JStr name);
        ("description", JStr description);
        ("examples", JArr (map JStr examples))].

(** The document [agent_card] serves. *)
Definition card : json N :=
  JObj
    [("name", JStr "travel_agent");
     ("description",
      JStr "Specialized travel planning agent with currency exchange and activity planning capabilities");
     ("version", JStr "1.0.0");
     ("capabilities",
      JObj
        [("skills",
          JArr
            [skill "travel_planning" "Travel Planning"
               "Create comprehensive travel itineraries with activities, restaurants, and attractions"
               ["Plan a 3-day trip to Paris";
                "Create an itinerary for Tokyo with a budget of $1500";
                "Suggest a day trip in Rome starting at 9 AM"];
             skill "currency_exchange" "Currency Exchange"
               "Get real-time exchange rates and convert between 30+ currencies"
               ["What's the exchange rate from USD to EUR?";
                "Convert 500 USD to JPY";
                "What currencies are supported?"];
             skill "restaurant_recommendations" "Restaurant Recommendations"
               "Suggest restaurants based on location, budget, and cuisine preferences"
               ["Recommend restaurants in Paris";
                "Find affordable dining options in Tokyo";
                "What are the best restaurants in Rome?"];
             skill "attraction_discovery" "Attraction Discovery"
               "Find tourist attractions, museums, landmarks, and activities"
               ["What are the top attractions in Paris?";
                "Find cultural activities in Tokyo";
                "List must-see sights in Rome"]]);
         ("supported_locations", JArr [JStr "Paris"; JStr "Tokyo"; JStr "Rome"]);
         ("mcp_tools", JArr [JStr "currency_tools"; JStr "activity_tools"])]);
     ("endpoints",
      JObj
        [("task",
          JObj
            [("url", JStr "/task");
             ("method", JStr "POST");
             ("description", JStr "Execute a travel planning task");
             ("request_schema",
              JObj
                [("task", JStr "string (required) - The travel planning task to execute");
                 ("user_id", JStr "string (optional) - User identifier")])]);
         ("health",
          JObj
            [("url", JStr "/health");
             ("method", JStr "GET");
             ("description", JStr "Health check endpoint")])]);
     ("protocol", JStr "a2a");
     ("contact",
      JObj
        [("author", JStr "MAF Team");
         ("repository", JStr "https://github.com/darkanita/MultiAgent-AKS-MAF")])].

Definition agent_card : handled (json N) := Returned card.

(** FastAPI around a handler: a returned value is sent with status 200, a
    [TaskResponse] through its [response_model]; an [HTTPException] is sent
    with its status code and its detail. *)
Definition TaskResponse_json (r : TaskResponse) : json N :=
  JObj [("result", JStr (result r)); ("agent", JStr (agent r))].

Definition respond {A : Type} (encode : A -> json N) (h : handled A) : http_response N :=
  match h with
  | Returned a => HttpResponse 200 (encode a)
  | HTTPException status_code detail =>
      HttpResponse status_code (JObj [("detail", JStr detail)])
  end.

Definition call (travel_agent : option ChatAgent) (h : handler) (body : json N)
  : http_response N :=
  match h with
  | h_root => respond id root
  | h_health => respond id (health travel_agent)
  | h_agent_card => respond id agent_card
  | h_execute_task =>
      match parse_TaskRequest body with
      | None => HttpResponse 422 (JObj [("detail", validation_errors body)])
      | Some request => respond TaskResponse_json (execute_task travel_agent request)
      end
  end.

(** Routing: the first route of [main.py] whose path and method match serves
    the request; a path of [main.py] asked under another method gives 405;
    any other path is the framework's to answer. *)
Definition find_route (m : method) (path : string) : option handler :=
  match List.filter (fun r => String.eqb (snd (fst r)) path && method_eqb (fst (fst r)) m) routes with
  | r :: _ => Some (snd r)
  | [] => None
  end.

Definition serve (travel_agent : option ChatAgent) (m : method) (path : string)
    (body : json N) : http_response N :=
  match find_route m path with
  | Some h => call travel_agent h body
  | None =>
      if existsb (fun r => String.eqb (snd (fst r)) path) routes
      then HttpResponse 405 (JObj [("detail", JStr "Method Not Allowed")])
      else framework_answer m path body
  end.

(** Reading the card the way a client does. *)
Definition field (key : string) (v : json N) : option (json N) :=
  match v with
  | JObj items => dict_get key items
  | _ => None
  end.

Fixpoint at_path (keys : list string) (v : json N) : option (json N) :=
  match keys with
  | [] => Some v
  | key :: keys' =>
      match field key v with
      | Some v' => at_path keys' v'
      | None => None
      end
  end.

Definition is_string (v : json N) : bool :=
  match v with
  | JStr _ => true
  | _ => false
  end.

Definition has_string (key : string) (v : json N) : bool :=
  match field key v with
  | Some (JStr _) => true
  | _ => false
  end.

Definition skill_well_formed (v : json N) : bool :=
  has_string "id" v && has_string "name" v && has_string "description" v &&
  match field "examples" v with
  | Some (JArr (e :: es)) => forallb is_string (e :: es)
  | _ => false
  end.

(** An endpoint descriptor of the card names a registered route. *)
Definition descriptor_registered (v : json N) : bool :=
  match field "url" v, field "method" v with
  | Some (JStr url), Some (JStr m) =>
      existsb (fun r => String.eqb (snd (fst r)) url &&
                        String.eqb (method_name (fst (fst r))) m) routes
  | _, _ => false
  end.

(** The methods registered for a path. *)
Definition methods_of (path : string) : list method :=
  map (fun r => fst (fst r)) (List.filter (fun r => String.eqb (snd (fst r)) path) routes).

End Agent.

End TravelAgent.

(** ** [tests/test_servicebus.py] and [scripts/get-async-responses.py] *)

Module ServiceBus.

(** A [ServiceBusMessage]: [str(msg)] is its body. *)
Record ServiceBusMessage : Type := mkMessage
  { body : string;
    application_properties : gmap string string;
    message_id : option string }.

Definition str_message (msg : ServiceBusMessage) : string := body msg.

(** The queues of the namespace, by name. *)
Definition queue_send (queue_name : string) (msg : ServiceBusMessage)
    (bus : gmap string (list ServiceBusMessage)) : gmap string (list ServiceBusMessage) :=
  <[queue_name := default [] (bus !! queue_name) ++ [msg]]> bus.

(** [send_task_to_queue]: [link] is what opening the client and the sender
    and sending raise, if anything; nothing is queued if they raise. *)
Definition send_task_to_queue (link : outcome ()) (task user_id : string)
    (bus : gmap string (list ServiceBusMessage))
  : outcome (gmap string (list ServiceBusMessage) * option string) :=
  let message :=
    mkMessage task
      (<["user_id" := user_id]> (<["preferred_agent" := EmptyString]> ∅)) None in
  _ ← link;
  mret (queue_send "agent-tasks" message bus, message_id message).

(** What [receive_responses] reads off a message. *)
Record response_fields : Type := mkFields
  { result : string; user_id : string; agent : string; task : string }.

Definition read_response (msg : ServiceBusMessage) : response_fields :=
  {| result := str_message msg;
     user_id := default "unknown" (application_properties msg !! "user_id");
     agent := default "unknown" (application_properties msg !! "agent_used");
     task := default "N/A" (application_properties msg !! "original_task") |}.

(** What the script does to the world, in order. *)
Inductive event : Type :=
| Printed (line : string)
| Completed (i : Z).

(** An action: the events it got through, and how it ended. *)
Definition io (A : Type) : Type := (list event * outcome A)%type.

#[export] Instance io_ret : MRet io := fun A a => ([], Ret a).
#[export] Instance io_bind : MBind io := fun A B f m =>
  match m with
  | (t, Ret a) => let '(t', r) := f a in (t ++ t', r)
  | (t, Raise e) => (t, Raise e)
  end.

Fixpoint repeat_string (s : string) (n : nat) : string :=
  match n with
  | O => EmptyString
  | S n' => s +:+ repeat_string s n'
  end.

Fixpoint io_for {A : Type} (body : A -> io ()) (l : list A) : io () :=
  match l with
  | [] => mret ()
  | x :: l' => _ ← body x; io_for body l'
  end.

Section Receiver.

(** Whether writing a line to standard output goes through, and whether the
    broker accepts the completion of a message. *)
Variable print_ok : string -> bool.
Variable complete_ok : ServiceBusMessage -> bool.

Definition print (line : string) : io () :=
  if print_ok line then ([Printed line], Ret ())
  else ([], Raise (Exception "OSError" "write failed")).

Definition complete_message (i : Z) (msg : ServiceBusMessage) : io () :=
  if complete_ok msg then ([Completed i], Ret ())
  else ([], Raise (Exception "ServiceBusError" "message could not be completed")).

(** The lines the loop prints for message [i] of [total]. *)
Definition display_lines (total : Z) (i : Z) (msg : ServiceBusMessage) : list string :=
  let f := read_response msg in
  [ repeat_string "=" 80;
    "📬 Response " +:+ str_int i +:+ "/" +:+ str_int total;
    repeat_string "=" 80;
    "User ID:       " +:+ user_id f;
    "Agent:         " +:+ agent f;
    "Original Task: " +:+ task f;
    NL +:+ "💬 Result:" +:+ NL +:+ result f;
    repeat_string "=" 80 +:+ NL ].

(** The body of the [for i, msg in enumerate(messages, 1)] loop. *)
Definition show_and_complete (total : Z) (im : Z * ServiceBusMessage) : io () :=
  let '(i, msg) := im in
  _ ← io_for print (display_lines total i msg);
  complete_message i msg.

(** [receive_responses]: [received] is what opening the client and the
    receiver and [receive_messages] give, the messages or an exception. *)
Definition receive_responses (count timeout : Z)
    (received : outcome (list ServiceBusMessage)) : io () :=
  _ ← print ("📥 Waiting for up to " +:+ str_int count +:+ " response(s) (timeout: " +:+
             str_int timeout +:+ "s)..." +:+ NL);
  messages ← (([], received) : io (list ServiceBusMessage));
  match messages with
  | [] => print "⏰ No responses received within timeout period"
  | _ =>
      let total := Z.of_nat (length messages) in
      _ ← io_for (show_and_complete total) (enumerate 1 messages);
      print ("✅ Received and processed " +:+ str_int total +:+ " response(s)")
  end.

(** [s[:n]] on the UTF-8 text of [s]: the bytes of its first [n] code
    points. A byte [10xxxxxx] continues the code point before it. *)
Definition is_continuation (c : ascii) : bool :=
  let n := nat_of_ascii c in (128 <=? n)%nat && (n <? 192)%nat.

Fixpoint str_take (n : nat) (s : string) : string :=
  match s with
  | EmptyString => EmptyString
  | String c s' =>
      if is_continuation c then String c (str_take n s')
      else match n with
           | O => EmptyString
           | S n' => String c (str_take n' s')
           end
  end.

(** The lines [peek_responses] prints for message [i] of [total]. *)
Definition peek_lines (total : Z) (i : Z) (msg : ServiceBusMessage) : list string :=
  let f := read_response msg in
  [ repeat_string "=" 80;
    "📬 Response " +:+ str_int i +:+ "/" +:+ str_int total;
    repeat_string "=" 80;
    "User ID: " +:+ user_id f;
    "Agent:   " +:+ agent f;
    NL +:+ "💬 Result (truncated):" +:+ NL +:+ str_take 200 (result f) +:+ "...";
    repeat_string "=" 80 +:+ NL ].

(** [peek_responses]: [peeked] is what opening the client and the receiver
    and [peek_messages] give. *)
Definition peek_responses (count : Z) (peeked : outcome (list ServiceBusMessage))
  : io () :=
  _ ← print ("👀 Peeking at up to " +:+ str_int count +:+ " response(s)..." +:+ NL);
  messages ← (([], peeked) : io (list ServiceBusMessage));
  match messages with
  | [] => print "📭 No messages in queue"
  | _ =>
      let total := Z.of_nat (length messages) in
      _ ← io_for (fun im : Z * ServiceBusMessage =>
                    io_for print (peek_lines total (fst im) (snd im)))
                 (enumerate 1 messages);
      print ("👁️  Peeked at " +:+ str_int total +:+ " response(s) (not removed from queue)")
  end.

(** [f"{props.get(key)}"]: [None] prints as ["None"]. *)
Definition str_property (msg : ServiceBusMessage) (key : string) : string :=
  default "None" (application_properties msg !! key).

(** The lines [receive_response_from_queue] prints for a message. *)
Definition received_lines (msg : ServiceBusMessage) : list string :=
  [ NL +:+ "✅ Response received!";
    "   User: " +:+ str_property msg "user_id";
    "   Agent: " +:+ str_property msg "agent_used";
    "   Original Task: " +:+ str_property msg "original_task";
    "   Result: " +:+ str_message msg ].

(** [receive_response_from_queue] of [tests/test_servicebus.py]: the loop
    returns from its first turn, so only the first message is handled; it is
    message 1 of the batch. *)
Definition receive_response_from_queue (timeout : Z)
    (received : outcome (list ServiceBusMessage)) : io (option string) :=
  _ ← print (NL +:+ "📥 Waiting for response (timeout: " +:+ str_int timeout +:+ "s)...");
  received_msgs ← (([], received) : io (list ServiceBusMessage));
  match received_msgs with
  | msg :: _ =>
      let result := str_message msg in
      _ ← io_for print (received_lines msg);
      _ ← complete_message 1 msg;
      mret (Some result)
  | [] =>
      _ ← print "⏰ Timeout - no response received";
      mret None
  end.

(** In a trace, every completion comes right after the whole display of its
    message, all of whose lines went through. *)
Definition acked_after_display (total : Z) (ims : list (Z * ServiceBusMessage))
    (trace : list event) : Prop :=
  forall pre i post,
    trace = pre ++ Completed i :: post ->
    exists msg pre',
      (i, msg) ∈ ims /\
      pre = pre' ++ map Printed (display_lines total i msg) /\
      Forall (fun line => print_ok line = true) (display_lines total i msg) /\
      complete_ok msg = true.

End Receiver.

Definition no_completion (trace : list event) : Prop :=
  forall i, Completed i ∉ trace.

(** The received messages that were not completed: the broker keeps them and
    delivers them again once their lock expires. *)
Definition completed_in (trace : list event) (i : Z) : bool :=
  existsb (fun e => match e with Completed j => i =? j | _ => false end) trace.

Definition unsettled (messages : list ServiceBusMessage) (trace : list event)
  : list (Z * ServiceBusMessage) :=
  List.filter (fun im => negb (completed_in trace (fst im))) (enumerate 1 messages).

End ServiceBus.

(** ** A runtime to run the tools on examples

    Numbers are exact decimals tagged [int] or [float]: binary rounding is
    left out, so the instance agrees with CPython wherever operands and
    results are short decimals. Strings are printed without escapes. *)

Module DecimalRuntime.

Record decimal : Type := Decimal { is_float : bool; value : Q }.

Definition round_half_even (q : Q) : Z :=
  let n := Qnum q in
  let d := Z.pos (Qden q) in
  let f := n / d in
  let r2 := 2 * (n mod d) in
  if r2 <? d then f
  else if d <? r2 then f + 1
  else if Z.even f then f else f + 1.

Fixpoint zeros (n : nat) : string :=
  match n with
  | O => EmptyString
  | S n' => String "0" (zeros n')
  end.

(** [format(q, ".<d>f")]. *)
Definition fixed (d : nat) (q : Q) : string :=
  let scale := 10 ^ Z.of_nat d in
  let r := round_half_even (Qabs q * inject_Z scale) in
  let frac := str_int (r mod scale) in
  (if Qnum q <? 0 then "-" else EmptyString) +:+
  str_int (r / scale) +:+ "." +:+ zeros (d - String.length frac) +:+ frac.

Fixpoint digits_needed (fuel : nat) (q : Q) : nat :=
  match fuel with
  | O => O
  | S fuel' =>
      if Qnum q mod Z.pos (Qden q) =? 0 then O
      else S (digits_needed fuel' (q * inject_Z 10))
  end.

Definition str_decimal (x : decimal) : string :=
  if is_float x then fixed (Nat.max 1 (digits_needed 17 (value x))) (value x)
  else str_int (Qnum (value x) / Z.pos (Qden (value x))).

Fixpoint join (sep : string) (l : list string) : string :=
  match l with
  | [] => EmptyString
  | [x] => x
  | x :: l' => x +:+ sep +:+ join sep l'
  end.

Fixpoint py_repr (v : json decimal) : string :=
  match v with
  | JNull => "None"
  | JBool b => if b then "True" else "False"
  | JNum n => str_decimal n
  | JStr s => "'" +:+ s +:+ "'"
  | JArr l => "[" +:+ join ", " (map py_repr l) +:+ "]"
  | JObj items =>
      "{" +:+
      join ", " (map (fun kv => "'" +:+ fst kv +:+ "': " +:+ py_repr (snd kv)) items)
      +:+ "}"
  end.

Definition type_name (v : json decimal) : string :=
  match v with
  | JNull => "NoneType"
  | JBool _ => "bool"
  | JNum n => if is_float n then "float" else "int"
  | JStr _ => "str"
  | JArr _ => "list"
  | JObj _ => "dict"
  end.

(** The messages of CPython 3.11 for the operations the tools apply. *)
Definition message (op : string) (v : json decimal) : string :=
  if String.eqb op "in" then
    "argument of type '" +:+ type_name v +:+ "' is not iterable"
  else if String.eqb op "subscript" then
    match v with
    | JArr _ => "list indices must be integers or slices, not str"
    | JStr _ => "string indices must be integers, not 'str'"
    | _ => "'" +:+ type_name v +:+ "' object is not subscriptable"
    end
  else if String.eqb op "format" then
    match v with
    | JStr _ => "Unknown format code 'f' for object of type 'str'"
    | _ => "unsupported format string passed to " +:+ type_name v +:+ ".__format__"
    end
  else if String.eqb op "truediv" then
    "unsupported operand type(s) for /: '" +:+ type_name v +:+ "' and 'float'"
  else "'" +:+ type_name v +:+ "' object has no attribute '" +:+ op +:+ "'".

Definition div (x y : decimal) : outcome decimal :=
  if Qnum (value y) =? 0 then
    Raise (Exception "ZeroDivisionError"
             (if is_float x || is_float y then "float division by zero"
              else "division by zero"))
  else Ret (Decimal true (Qred (value x / value y))).

Definition runtime : Runtime :=
  {| num := decimal;
     int_zero := Decimal false 0;
     num_of_bool := fun b => Decimal false (if b then 1 else 0);
     ne_zero := fun x => negb (Qnum (value x) =? 0);
     truediv := div;
     format_f := fun d x => Ret (fixed d (value x));
     str_value := py_repr;
     interp_msg := message;
     upper := ascii_upper |}.

(** An exchange-rate service: rates for 2024-01-15, HTTP 404 for the date
    [1900-01-01], HTTP 500 for the currency list, no connection otherwise. *)
Definition sample_rates (amount : Q) : json decimal :=
  JObj [("amount", JNum (Decimal true amount));
        ("base", JStr "USD");
        ("date", JStr "2024-01-15");
        ("rates", JObj [("EUR", JNum (Decimal true (Qred (amount * (9247 # 10000)))))])].

Definition sample_http (url : string) (params : list (string * json decimal))
  : outcome (json decimal) :=
  if String.eqb url "https://api.frankfurter.app/latest" then
    match dict_get "amount" params with
    | Some (JNum a) => Ret (sample_rates (value a))
    | _ => Ret (sample_rates 1)
    end
  else if String.eqb url "https://api.frankfurter.app/1900-01-01" then
    Raise (HTTPStatusError
             "Client error '404 Not Found' for url 'https://api.frankfurter.app/1900-01-01'"
             404 "not found")
  else if String.eqb url "https://api.frankfurter.app/currencies" then
    Raise (HTTPStatusError
             "Server error '500 Internal Server Error' for url 'https://api.frankfurter.app/currencies'"
             500 "internal error")
  else Raise (Exception "ConnectError" "All connection attempts failed").

End DecimalRuntime.

(** ** Sample agents, requests and messages *)

Module Sample.

(** An agent whose run result has no [response] attribute and prints as the
    task it was given, and one whose [run] raises. *)
Definition echo_agent : TravelAgent.ChatAgent (pyobj := Empty_set) :=
  {| TravelAgent.run := fun task =>
       Ret (TravelAgent.RunResult None (Ret ("Done: " +:+ task))) |}.

Definition failing_agent : TravelAgent.ChatAgent (pyobj := Empty_set) :=
  {| TravelAgent.run := fun _ => Raise (Exception "TimeoutError" "model timed out") |}.

Definition no_object (o : Empty_set) : outcome string := match o with end.

Definition no_errors (body : json Z) : json Z := JArr [].

(** A framework with the documentation routes and the slash redirects
    switched off: it answers 404 on every path that is not of [main.py]. *)
Definition no_pages (m : TravelAgent.method) (path : string) (body : json Z)
  : TravelAgent.http_response Z :=
  TravelAgent.HttpResponse 404 (JObj [("detail", JStr "Not Found")]).

Definition plan_request : json Z :=
  JObj [("task", JStr "Plan a 2-day trip to Paris")].

Definition convert_request : json Z :=
  JObj [("task", JStr "Convert 500 USD to EUR"); ("user_id", JStr "test_user")].

Definition response_message : ServiceBus.ServiceBusMessage :=
  ServiceBus.mkMessage "500 USD = 462.35 EUR"
    (<["user_id" := "u1"]>
     (<["agent_used" := "travel_agent"]>
      (<["original_task" := "Convert 500 USD to EUR"]> ∅))) None.

Definition bare_message : ServiceBus.ServiceBusMessage :=
  ServiceBus.mkMessage "no properties" ∅ None.

(** Standard output that breaks on the [User ID] line of a message without
    properties. *)
Definition broken_stdout (line : string) : bool :=
  negb (String.eqb line "User ID:       unknown").

End Sample.

(** * Properties *)

(** ** Strings and outcomes *)

Lemma append_assoc (a b c : string) : (a +:+ b) +:+ c = a +:+ (b +:+ c).
Proof.
  induction a as [|x a IH]; [reflexivity|].
  change (String x ((a +:+ b) +:+ c) = String x (a +:+ (b +:+ c))).
  now rewrite IH.
Qed.

Lemma append_empty_r (a : string) : a +:+ EmptyString = a.
Proof.
  induction a as [|x a IH]; [reflexivity|].
  change (String x (a +:+ EmptyString) = String x a).
  now rewrite IH.
Qed.

Example ascii_case_examples :
  ascii_lower "PaRiS" = "paris" /\ ascii_upper "usd" = "USD" /\
  ascii_title "new york-city 3days" = "New York-City 3Days".
Proof. repeat split. Qed.

(** ** Activity tools *)

Import Activity.

Lemma appender_pure (t : string) : appender (fun acc => mret (acc +:+ t)).
Proof. intros acc. reflexivity. Qed.

Lemma appender_seq (f g : string -> outcome string) :
  appender f -> appender g -> appender (fun acc => a ← f acc; g a).
Proof.
  intros Hf Hg acc. rewrite (Hf acc).
  destruct (f EmptyString) as [s|e]; [|reflexivity].
  change (g (acc +:+ s) = x ← g s; mret (acc +:+ x)).
  rewrite (Hg (acc +:+ s)), (Hg s).
  destruct (g EmptyString) as [t|e]; [|reflexivity].
  change (Ret ((acc +:+ s) +:+ t) = Ret (acc +:+ (s +:+ t))).
  now rewrite append_assoc.
Qed.

Lemma appender_after_append (t : string) (f : string -> outcome string) :
  appender f -> appender (fun acc => f (acc +:+ t)).
Proof.
  intros Hf acc. cbv beta. rewrite (Hf (acc +:+ t)).
  change (EmptyString +:+ t) with t. rewrite (Hf t).
  destruct (f EmptyString) as [s|e]; [|reflexivity].
  change (Ret ((acc +:+ t) +:+ s) = Ret (acc +:+ (t +:+ s))).
  now rewrite append_assoc.
Qed.

Lemma add_visit_acc h a acc : add_visit h a acc = acc +:+ add_visit h a EmptyString.
Proof. unfold add_visit; cbv zeta. now rewrite !append_assoc. Qed.

Lemma add_meal_acc h r acc : add_meal h r acc = acc +:+ add_meal h r EmptyString.
Proof. unfold add_meal; cbv zeta. now rewrite !append_assoc. Qed.

Lemma if_longer_appender {A : Type} (xs : list A) (i : Z) (add : A -> string -> string) :
  (forall x acc, add x acc = acc +:+ add x EmptyString) ->
  appender (if_longer xs i add).
Proof.
  intros Hadd acc. unfold if_longer.
  destruct (Z.of_nat (length xs) >? i).
  - destruct (py_getitem xs i) as [x|e]; [|reflexivity].
    change (Ret (add x acc) = Ret (acc +:+ add x EmptyString)).
    now rewrite Hadd.
  - change (Ret acc = Ret (acc +:+ EmptyString)). now rewrite append_empty_r.
Qed.

Lemma day_body_appender attractions restaurants day :
  appender (day_body attractions restaurants day).
Proof.
  unfold day_body; cbv zeta.
  apply (appender_seq (fun acc => if_longer _ _ _ (acc +:+ _))).
  { apply appender_after_append, if_longer_appender, add_visit_acc. }
  apply (appender_seq (if_longer _ _ _)).
  { apply if_longer_appender, add_meal_acc. }
  apply (appender_seq (if_longer _ _ _)).
  { apply if_longer_appender, add_visit_acc. }
  apply if_longer_appender, add_meal_acc.
Qed.

Lemma for_each_three_days attractions restaurants acc :
  for_each (day_body attractions restaurants) [1; 2; 3] acc =
    (s1 ← day_body attractions restaurants 1 EmptyString;
     s2 ← day_body attractions restaurants 2 EmptyString;
     s3 ← day_body attractions restaurants 3 EmptyString;
     mret (acc +:+ s1 +:+ s2 +:+ s3)).
Proof.
  cbn [for_each].
  rewrite (day_body_appender attractions restaurants 1 acc).
  destruct (day_body attractions restaurants 1 EmptyString) as [s1|e]; [|reflexivity].
  change ((a ← day_body attractions restaurants 2 (acc +:+ s1);
           b ← day_body attractions restaurants 3 a; Ret b) =
          (s2 ← day_body attractions restaurants 2 EmptyString;
           s3 ← day_body attractions restaurants 3 EmptyString;
           mret (acc +:+ s1 +:+ s2 +:+ s3))).
  rewrite (day_body_appender attractions restaurants 2 (acc +:+ s1)).
  destruct (day_body attractions restaurants 2 EmptyString) as [s2|e]; [|reflexivity].
  change ((b ← day_body attractions restaurants 3 ((acc +:+ s1) +:+ s2); Ret b) =
          (s3 ← day_body attractions restaurants 3 EmptyString;
           mret (acc +:+ s1 +:+ s2 +:+ s3))).
  rewrite (day_body_appender attractions restaurants 3 ((acc +:+ s1) +:+ s2)).
  destruct (day_body attractions restaurants 3 EmptyString) as [s3|e]; [|reflexivity].
  change (Ret (((acc +:+ s1) +:+ s2) +:+ s3) = Ret (acc +:+ s1 +:+ s2 +:+ s3)).
  now rewrite !append_assoc.
Qed.

Lemma py_range_capped (n : Z) : 3 <= n -> py_range 1 (Z.min (n + 1) 4) = [1; 2; 3].
Proof. intros Hn. replace (Z.min (n + 1) 4) with 4 by lia. reflexivity. Qed.

Lemma attractions_unknown (k : string) :
  k <> "paris" -> k <> "tokyo" -> k <> "rome" -> ATTRACTIONS_DB !! k = None.
Proof.
  intros Hp Ht Hr. unfold ATTRACTIONS_DB.
  rewrite !lookup_insert_ne by congruence. apply lookup_empty.
Qed.

(** The sample data of a known city, and the three day sections it yields:
    no lookup fails, and section [k] opens with the heading of day [k]. *)
Lemma known_city_sections (k : string) :
  k = "paris" \/ k = "tokyo" \/ k = "rome" ->
  exists attractions restaurants s1 s2 s3,
    ATTRACTIONS_DB !! k = Some attractions /\
    RESTAURANT_DB !! k = Some restaurants /\
    day_body attractions restaurants 1 EmptyString = Ret s1 /\
    day_body attractions restaurants 2 EmptyString = Ret s2 /\
    day_body attractions restaurants 3 EmptyString = Ret s3 /\
    String.prefix ("## Day 1" +:+ NL +:+ NL) s1 = true /\
    String.prefix ("## Day 2" +:+ NL +:+ NL) s2 = true /\
    String.prefix ("## Day 3" +:+ NL +:+ NL) s3 = true.
Proof.
  intros [-> | [-> | ->]]; do 5 eexists;
    (split; [reflexivity|]); (split; [reflexivity|]);
    (split; [vm_compute; reflexivity|]); (split; [vm_compute; reflexivity|]);
    (split; [vm_compute; reflexivity|]); repeat split.
Qed.

(** C10. [create_itinerary] plans at most three days. For a known destination
    (its lower-cased name is a key of the sample data) and any
    [duration_days >= 3], the result is the header for that duration followed
    by the sections of days 1, 2 and 3 and nothing else, the same sections as
    for [duration_days = 3]; for a destination whose lower-cased name is not
    in the sample data the result is the "No data available" message. *)
Theorem create_itinerary_three_day_cap
    (lower title : string -> string) (destination budget : string) (n : Z) :
  (lower destination = "paris" \/ lower destination = "tokyo" \/
   lower destination = "rome" ->
   3 <= n ->
   exists attractions restaurants s1 s2 s3,
     ATTRACTIONS_DB !! lower destination = Some attractions /\
     RESTAURANT_DB !! lower destination = Some restaurants /\
     day_body attractions restaurants 1 EmptyString = Ret s1 /\
     day_body attractions restaurants 2 EmptyString = Ret s2 /\
     day_body attractions restaurants 3 EmptyString = Ret s3 /\
     String.prefix ("## Day 1" +:+ NL +:+ NL) s1 = true /\
     String.prefix ("## Day 2" +:+ NL +:+ NL) s2 = true /\
     String.prefix ("## Day 3" +:+ NL +:+ NL) s3 = true /\
     create_itinerary lower title destination n budget =
       Ret (itinerary_header title destination n budget +:+ s1 +:+ s2 +:+ s3) /\
     create_itinerary lower title destination 3 budget =
       Ret (itinerary_header title destination 3 budget +:+ s1 +:+ s2 +:+ s3))
  /\
  (lower destination <> "paris" -> lower destination <> "tokyo" ->
   lower destination <> "rome" ->
   create_itinerary lower title destination n budget =
     Ret ("No data available for " +:+ destination +:+
          ". Available destinations: Paris, Tokyo, Rome")).
Proof.
  split.
  - intros Hk Hn.
    destruct (known_city_sections _ Hk)
      as (atts & rests & s1 & s2 & s3 & Ha & Hr & H1 & H2 & H3 & P1 & P2 & P3).
    exists atts, rests, s1, s2, s3.
    repeat (split; [assumption|]).
    unfold create_itinerary; cbv zeta. rewrite Ha, Hr.
    rewrite (py_range_capped n Hn), (py_range_capped 3) by lia.
    rewrite !for_each_three_days, H1, H2, H3. split; reflexivity.
  - intros Hp Ht Hr. unfold create_itinerary; cbv zeta.
    now rewrite (attractions_unknown _ Hp Ht Hr).
Qed.

Lemma create_itinerary_three_day_cap_witness :
  (exists body,
     create_itinerary ascii_lower ascii_title "Paris" 7 "moderate" =
       Ret (itinerary_header ascii_title "Paris" 7 "moderate" +:+ body) /\
     create_itinerary ascii_lower ascii_title "Paris" 3 "moderate" =
       Ret (itinerary_header ascii_title "Paris" 3 "moderate" +:+ body)) /\
  create_itinerary ascii_lower ascii_title "Berlin" 2 "budget" =
    Ret "No data available for Berlin. Available destinations: Paris, Tokyo, Rome".
Proof.
  split.
  - destruct (proj1 (create_itinerary_three_day_cap
                       ascii_lower ascii_title "Paris" "moderate" 7))
      as (atts & rests & s1 & s2 & s3 & _ & _ & _ & _ & _ & _ & _ & _ & E7 & E3).
    + left; reflexivity.
    + intros H; discriminate H.
    + exists (s1 +:+ s2 +:+ s3). split; assumption.
  - apply (proj2 (create_itinerary_three_day_cap
                    ascii_lower ascii_title "Berlin" "budget" 2));
      intros H; discriminate H.
Defined.

(** C9. The recommendation tools read only [location]: [cuisine_type] and
    [budget] of [suggest_restaurants], and [attraction_type] of
    [find_attractions], never reach the result. *)
Theorem recommendations_depend_only_on_location
    (lower title : string -> string)
    (location cuisine_type1 budget1 cuisine_type2 budget2 : string)
    (attraction_type1 attraction_type2 : string) :
  suggest_restaurants lower title location cuisine_type1 budget1 =
    suggest_restaurants lower title location cuisine_type2 budget2 /\
  find_attractions lower title location attraction_type1 =
    find_attractions lower title location attraction_type2.
Proof. split; reflexivity. Qed.

(** ** Currency tools *)

Import Currency.

Section CurrencyProperties.

Context {rt : Runtime}.
Variable http_get : string -> list (string * json num) -> outcome (json num).

Lemma try_except_returns {A : Type} (body : outcome A) (handler : exn -> outcome A) :
  (forall e, exists a, handler e = Ret a) ->
  exists a, try_except body handler = Ret a.
Proof.
  intros Hh. destruct body as [a|e]; [exists a; reflexivity | apply Hh].
Qed.

Lemma get_exchange_rate_returns currency_from currency_to date :
  exists s, get_exchange_rate http_get currency_from currency_to date = Ret s.
Proof.
  apply try_except_returns. intros [msg code text | cls msg]; eexists; reflexivity.
Qed.

Lemma convert_currency_returns amount currency_from currency_to date :
  exists s, convert_currency http_get amount currency_from currency_to date = Ret s.
Proof.
  apply try_except_returns. intros [msg code text | cls msg]; eexists; reflexivity.
Qed.

Lemma get_supported_currencies_returns :
  exists s, get_supported_currencies http_get = Ret s.
Proof.
  apply try_except_returns. intros e; eexists; reflexivity.
Qed.

Lemma py_in_dict key items (v : json num) :
  dict_get key items = Some v -> py_in key (JObj items) = Ret true.
Proof. intros H. unfold py_in. rewrite H. reflexivity. Qed.

(** A body holding a rate for [currency] passes the [rates] test. *)
Lemma rate_missing_present items rs currency v :
  dict_get "rates" items = Some (JObj rs) ->
  dict_get currency rs = Some v ->
  rate_missing (JObj items) currency = Ret false.
Proof.
  intros Hr Hc. unfold rate_missing.
  rewrite (py_in_dict _ _ _ Hr). cbn [mbind outcome_bind negb].
  unfold py_subscript. rewrite Hr. cbn [mbind outcome_bind mret outcome_ret].
  rewrite (py_in_dict _ _ _ Hc). reflexivity.
Qed.

(** With [amount == 0] the division is skipped and the rate is the int [0]. *)
Lemma convert_currency_zero_amount amount currency_from currency_to date
    items rs converted amount_text converted_text rate_text :
  ne_zero amount = false ->
  http_get (FRANKFURTER_API +:+ "/" +:+ date)
    [("amount", JNum amount); ("from", JStr (upper currency_from));
     ("to", JStr (upper currency_to))] = Ret (JObj items) ->
  dict_get "rates" items = Some (JObj rs) ->
  dict_get (upper currency_to) rs = Some converted ->
  format_f 2 amount = Ret amount_text ->
  py_format_f 2 converted = Ret converted_text ->
  format_f 4 int_zero = Ret rate_text ->
  convert_currency http_get amount currency_from currency_to date =
    Ret ("Conversion on " +:+
         py_format (from_option id (JStr date) (dict_get "date" items)) +:+ ":" +:+ NL +:+
         amount_text +:+ " " +:+ upper currency_from +:+ " = " +:+
         converted_text +:+ " " +:+ upper currency_to +:+ NL +:+
         "Exchange rate: 1 " +:+ upper currency_from +:+ " = " +:+ rate_text +:+
         " " +:+ upper currency_to).
Proof.
  intros Hz Hget Hr Hc Ha Hcv Hrt.
  unfold convert_currency, convert_currency_try; cbv zeta.
  rewrite Hget. cbn [mbind outcome_bind].
  rewrite (rate_missing_present _ _ _ _ Hr Hc). cbn [mbind outcome_bind].
  unfold py_subscript. rewrite Hr. cbn [mbind outcome_bind mret outcome_ret].
  rewrite Hc. cbn [mbind outcome_bind mret outcome_ret].
  rewrite Hz. cbn [mbind outcome_bind mret outcome_ret py_get].
  rewrite Ha. cbn [mbind outcome_bind].
  rewrite Hcv. cbn [mbind outcome_bind].
  rewrite Hrt. reflexivity.
Qed.

End CurrencyProperties.

(** C8 (amended). The three currency tools always return a string, whatever
    the arguments and whatever the HTTP exchange does. In [get_exchange_rate]
    and [convert_currency] an HTTP status failure is answered with
    ["HTTP error: <status> - <text>"] and any other exception raised in the
    [try] block with ["Error ...: <message>"]; [get_supported_currencies] has
    a single handler and answers every exception, an HTTP status failure
    included, with ["Error fetching supported currencies: <message>"]. With
    [amount == 0] [convert_currency] does not divide and reports the rate of
    the int [0]. *)
Theorem currency_tools_always_return {rt : Runtime}
    (http_get : string -> list (string * json num) -> outcome (json num))
    (amount : num) (currency_from currency_to date : string) :
  let url := FRANKFURTER_API +:+ "/" +:+ date in
  let rate_params :=
    [("from", JStr (upper currency_from)); ("to", JStr (upper currency_to))] in
  let convert_params := ("amount", JNum amount) :: rate_params in
  (exists s, get_exchange_rate http_get currency_from currency_to date = Ret s) /\
  (exists s, convert_currency http_get amount currency_from currency_to date = Ret s) /\
  (exists s, get_supported_currencies http_get = Ret s) /\
  (forall msg status_code text,
     http_get url rate_params = Raise (HTTPStatusError msg status_code text) ->
     get_exchange_rate http_get currency_from currency_to date =
       Ret ("HTTP error: " +:+ str_int status_code +:+ " - " +:+ text)) /\
  (forall msg status_code text,
     http_get url convert_params = Raise (HTTPStatusError msg status_code text) ->
     convert_currency http_get amount currency_from currency_to date =
       Ret ("HTTP error: " +:+ str_int status_code +:+ " - " +:+ text)) /\
  (forall cls msg,
     get_exchange_rate_try http_get currency_from currency_to date =
       Raise (Exception cls msg) ->
     get_exchange_rate http_get currency_from currency_to date =
       Ret ("Error fetching exchange rate: " +:+ msg)) /\
  (forall cls msg,
     convert_currency_try http_get amount currency_from currency_to date =
       Raise (Exception cls msg) ->
     convert_currency http_get amount currency_from currency_to date =
       Ret ("Error converting currency: " +:+ msg)) /\
  (forall e,
     get_supported_currencies_try http_get = Raise e ->
     get_supported_currencies http_get =
       Ret ("Error fetching supported currencies: " +:+ str_exn e)) /\
  (forall msg status_code text,
     http_get (FRANKFURTER_API +:+ "/currencies") [] =
       Raise (HTTPStatusError msg status_code text) ->
     get_supported_currencies http_get =
       Ret ("Error fetching supported currencies: " +:+ msg)) /\
  (forall items rs converted amount_text converted_text rate_text,
     ne_zero amount = false ->
     http_get url convert_params = Ret (JObj items) ->
     dict_get "rates" items = Some (JObj rs) ->
     dict_get (upper currency_to) rs = Some converted ->
     format_f 2 amount = Ret amount_text ->
     py_format_f 2 converted = Ret converted_text ->
     format_f 4 int_zero = Ret rate_text ->
     convert_currency http_get amount currency_from currency_to date =
       Ret ("Conversion on " +:+
            py_format (from_option id (JStr date) (dict_get "date" items)) +:+
            ":" +:+ NL +:+
            amount_text +:+ " " +:+ upper currency_from +:+ " = " +:+
            converted_text +:+ " " +:+ upper currency_to +:+ NL +:+
            "Exchange rate: 1 " +:+ upper currency_from +:+ " = " +:+ rate_text +:+
            " " +:+ upper currency_to)).
Proof.
  intros url rate_params convert_params.
  split; [apply get_exchange_rate_returns|].
  split; [apply convert_currency_returns|].
  split; [apply get_supported_currencies_returns|].
  split.
  { intros msg code text H.
    unfold get_exchange_rate, get_exchange_rate_try; cbv zeta.
    fold url rate_params. now rewrite H. }
  split.
  { intros msg code text H.
    unfold convert_currency, convert_currency_try; cbv zeta.
    fold url rate_params convert_params. now rewrite H. }
  split.
  { intros cls msg H. unfold get_exchange_rate. now rewrite H. }
  split.
  { intros cls msg H. unfold convert_currency. now rewrite H. }
  split.
  { intros e H. unfold get_supported_currencies. now rewrite H. }
  split.
  { intros msg code text H.
    unfold get_supported_currencies, get_supported_currencies_try; cbv zeta.
    now rewrite H. }
  intros items rs converted amount_text converted_text rate_text.
  apply convert_currency_zero_amount.
Qed.

Lemma currency_tools_always_return_witness :
  let run_rate := get_exchange_rate (rt := DecimalRuntime.runtime) DecimalRuntime.sample_http in
  let run_convert := convert_currency (rt := DecimalRuntime.runtime) DecimalRuntime.sample_http in
  let zero := DecimalRuntime.Decimal true 0 in
  run_rate "usd" "eur" "1900-01-01" = Ret "HTTP error: 404 - not found" /\
  run_convert zero "usd" "eur" "1900-01-01" = Ret "HTTP error: 404 - not found" /\
  run_rate "usd" "eur" "2000-01-01" =
    Ret "Error fetching exchange rate: All connection attempts failed" /\
  run_convert zero "usd" "eur" "2000-01-01" =
    Ret "Error converting currency: All connection attempts failed" /\
  get_supported_currencies (rt := DecimalRuntime.runtime) DecimalRuntime.sample_http =
    Ret "Error fetching supported currencies: Server error '500 Internal Server Error' for url 'https://api.frankfurter.app/currencies'" /\
  run_convert zero "usd" "eur" "latest" =
    Ret ("Conversion on 2024-01-15:" +:+ NL +:+ "0.00 USD = 0.00 EUR" +:+ NL +:+
         "Exchange rate: 1 USD = 0.0000 EUR").
Proof.
  intros run_rate run_convert zero.
  pose proof (currency_tools_always_return (rt := DecimalRuntime.runtime)
                DecimalRuntime.sample_http zero "usd" "eur" "1900-01-01") as T1.
  pose proof (currency_tools_always_return (rt := DecimalRuntime.runtime)
                DecimalRuntime.sample_http zero "usd" "eur" "2000-01-01") as T2.
  pose proof (currency_tools_always_return (rt := DecimalRuntime.runtime)
                DecimalRuntime.sample_http zero "usd" "eur" "latest") as T3.
  cbv zeta in T1, T2, T3.
  destruct T1 as (_ & _ & _ & Hrate & Hconv & _).
  destruct T2 as (_ & _ & _ & _ & _ & Erate & Econv & Ecur & Scur & _).
  destruct T3 as (_ & _ & _ & _ & _ & _ & _ & _ & _ & Hzero).
  split; [exact (Hrate _ 404 "not found" eq_refl)|].
  split; [exact (Hconv _ 404 "not found" eq_refl)|].
  split; [exact (Erate "ConnectError" _ eq_refl)|].
  split; [exact (Econv "ConnectError" _ eq_refl)|].
  split; [exact (Scur _ 500 "internal error" eq_refl)|].
  exact (Hzero _ _ _ "0.00" "0.00" "0.0000" eq_refl eq_refl eq_refl eq_refl
           eq_refl eq_refl eq_refl).
Defined.

(** C8 as stated fails for [get_supported_currencies]: when the service
    answers with an error status, the tool's only handler reports it under
    the ["Error fetching supported currencies: "] heading, not as
    ["HTTP error: ..."]. *)
Lemma get_supported_currencies_status_failure_not_http_error :
  DecimalRuntime.sample_http (FRANKFURTER_API +:+ "/currencies") [] =
    Raise (HTTPStatusError
             "Server error '500 Internal Server Error' for url 'https://api.frankfurter.app/currencies'"
             500 "internal error") /\
  get_supported_currencies (rt := DecimalRuntime.runtime) DecimalRuntime.sample_http =
    Ret "Error fetching supported currencies: Server error '500 Internal Server Error' for url 'https://api.frankfurter.app/currencies'" /\
  ~ (exists rest,
       get_supported_currencies (rt := DecimalRuntime.runtime) DecimalRuntime.sample_http =
         Ret ("HTTP error: " +:+ rest)).
Proof.
  split; [reflexivity|]. split; [reflexivity|].
  intros [rest H]. vm_compute in H. discriminate H.
Qed.

(** ** Travel agent *)

Section TravelAgentProperties.

Import TravelAgent.

Context {N : Type} {pyobj : Type}.
Variable pydantic_str : pyobj -> outcome string.
Variable validation_errors : json N -> json N.
Variable framework_answer : method -> string -> json N -> http_response N.

Lemma TaskResponse_init_agent (r : pyobj + string) (name : string) (resp : TaskResponse) :
  TaskResponse_init pydantic_str r name = Ret resp -> agent resp = name.
Proof.
  unfold TaskResponse_init. destruct r as [o|s].
  - destruct (pydantic_str o) as [s|e]; [|discriminate].
    intros [= <-]. reflexivity.
  - intros [= <-]. reflexivity.
Qed.

Lemma execute_task_try_agent (a : ChatAgent) (request : TaskRequest) (resp : TaskResponse) :
  execute_task_try pydantic_str a request = Ret resp -> agent resp = "travel_agent".
Proof.
  unfold execute_task_try.
  destruct (run a (task request)) as [res|e]; [|discriminate].
  cbn [mbind outcome_bind].
  destruct (response res) as [r|].
  - apply TaskResponse_init_agent.
  - destruct (str_result res) as [s|e]; [|discriminate].
    apply TaskResponse_init_agent.
Qed.

(** The answer to [POST /task] for a request body FastAPI accepts. *)
Lemma post_task_response travel_agent body request :
  parse_TaskRequest body = Some request ->
  serve pydantic_str validation_errors framework_answer travel_agent POST "/task" body =
    match travel_agent with
    | None => HttpResponse 503 (JObj [("detail", JStr "Agent not initialized")])
    | Some a =>
        match execute_task_try pydantic_str a request with
        | Ret r => HttpResponse 200 (TaskResponse_json r)
        | Raise e =>
            HttpResponse 500 (JObj [("detail", JStr ("Error executing task: " +:+ str_exn e))])
        end
    end.
Proof.
  intros Hp.
  change (serve pydantic_str validation_errors framework_answer travel_agent POST "/task" body)
    with (call pydantic_str validation_errors travel_agent h_execute_task body).
  unfold call. rewrite Hp. unfold execute_task.
  destruct travel_agent as [a|]; [|reflexivity].
  destruct (execute_task_try pydantic_str a request); reflexivity.
Qed.

(** A body FastAPI rejects is answered with 422 before the handler runs. *)
Lemma post_task_rejected travel_agent body :
  parse_TaskRequest body = None ->
  serve pydantic_str validation_errors framework_answer travel_agent POST "/task" body =
    HttpResponse 422 (JObj [("detail", validation_errors body)]).
Proof.
  intros Hp.
  change (serve pydantic_str validation_errors framework_answer travel_agent POST "/task" body)
    with (call pydantic_str validation_errors travel_agent h_execute_task body).
  unfold call. now rewrite Hp.
Qed.

Lemma get_health_response travel_agent body :
  serve pydantic_str validation_errors framework_answer travel_agent GET "/health" body =
    match travel_agent with
    | None => HttpResponse 503 (JObj [("detail", JStr "Agent not initialized")])
    | Some _ => HttpResponse 200 (JObj [("status", JStr "healthy")])
    end.
Proof. destruct travel_agent; reflexivity. Qed.

End TravelAgentProperties.

Import TravelAgent.

(** C1. A successful [POST /task] (the agent is initialised, the request is
    accepted and the [try] block of [execute_task] returns) is answered with
    status 200 and a JSON object with exactly the fields [result] and [agent],
    both strings, [agent] being ["travel_agent"]; and every 200 answer of the
    route has that shape. *)
Theorem task_success_response_shape {N pyobj : Type}
    (pydantic_str : pyobj -> outcome string) (validation_errors : json N -> json N)
    (framework_answer : method -> string -> json N -> http_response N)
    (travel_agent : option ChatAgent) (body : json N) :
  let answer := serve pydantic_str validation_errors framework_answer travel_agent POST "/task" body in
  (forall a request r,
     travel_agent = Some a ->
     parse_TaskRequest body = Some request ->
     execute_task_try pydantic_str a request = Ret r ->
     answer = HttpResponse 200 (JObj [("result", JStr (result r));
                                      ("agent", JStr "travel_agent")])) /\
  (status answer = 200 ->
   exists text,
     content answer = JObj [("result", JStr text); ("agent", JStr "travel_agent")]).
Proof.
  intros answer; subst answer. split.
  - intros a request r -> Hp Hr.
    rewrite (post_task_response _ _ _ _ _ _ Hp), Hr.
    unfold TaskResponse_json. now rewrite (execute_task_try_agent _ _ _ _ Hr).
  - destruct (parse_TaskRequest body) as [request|] eqn:Hp.
    + rewrite (post_task_response _ _ _ _ _ _ Hp).
      destruct travel_agent as [a|]; [|discriminate].
      destruct (execute_task_try pydantic_str a request) as [r|e] eqn:Hr; [|discriminate].
      intros _. exists (result r). unfold TaskResponse_json. cbn [content].
      now rewrite (execute_task_try_agent _ _ _ _ Hr).
    + rewrite (post_task_rejected _ _ _ _ _ Hp). discriminate.
Qed.

(** C2 (amended). [GET /health] answers 200 exactly when the agent is
    initialised and 503 otherwise. For a body that is accepted as a
    [TaskRequest], [POST /task] answers 503 exactly when the agent is not
    initialised, 500 exactly when the agent is initialised and the [try]
    block raises, and 200 exactly when it returns; a body that is not
    accepted is answered 422 before [execute_task] runs. A failure never
    comes with a 2xx status. *)
Theorem travel_agent_status_codes {N pyobj : Type}
    (pydantic_str : pyobj -> outcome string) (validation_errors : json N -> json N)
    (framework_answer : method -> string -> json N -> http_response N)
    (travel_agent : option ChatAgent) (body : json N) :
  let h := serve pydantic_str validation_errors framework_answer travel_agent GET "/health" body in
  let t := serve pydantic_str validation_errors framework_answer travel_agent POST "/task" body in
  (status h = 200 <-> is_Some travel_agent) /\
  (status h = 503 <-> travel_agent = None) /\
  (status h = 200 \/ status h = 503) /\
  (forall request,
     parse_TaskRequest body = Some request ->
     (status t = 503 <-> travel_agent = None) /\
     (status t = 500 <->
        exists a e, travel_agent = Some a /\
                    execute_task_try pydantic_str a request = Raise e) /\
     (status t = 200 <->
        exists a r, travel_agent = Some a /\
                    execute_task_try pydantic_str a request = Ret r) /\
     (status t = 200 \/ status t = 500 \/ status t = 503)) /\
  (parse_TaskRequest body = None -> status t = 422).
Proof.
  intros h t; subst h t. rewrite get_health_response.
  split; [|split; [|split; [|split]]].
  - destruct travel_agent; cbn [status]; split; try discriminate; eauto.
    intros [? [=]].
  - destruct travel_agent; cbn [status]; split; try discriminate; eauto.
  - destruct travel_agent; cbn [status]; auto.
  - intros request Hp. rewrite (post_task_response _ _ _ _ _ _ Hp).
    destruct travel_agent as [a|].
    + destruct (execute_task_try pydantic_str a request) as [r|e] eqn:Hr; cbn [status].
      * repeat split; try discriminate; eauto.
        intros (a' & e & [= <-] & He). congruence.
      * repeat split; try discriminate; eauto.
        intros (a' & r & [= <-] & He). congruence.
    + cbn [status]. repeat split; try discriminate; eauto.
      * intros (a' & e & [=] & _).
      * intros (a' & r & [=] & _).
  - intros Hp. now rewrite (post_task_rejected _ _ _ _ _ Hp).
Qed.

Lemma task_success_response_shape_witness :
  serve Sample.no_object Sample.no_errors Sample.no_pages (Some Sample.echo_agent) POST "/task"
    Sample.plan_request =
    HttpResponse 200 (JObj [("result", JStr "Done: Plan a 2-day trip to Paris");
                            ("agent", JStr "travel_agent")]) /\
  exists text,
    content (serve Sample.no_object Sample.no_errors Sample.no_pages (Some Sample.echo_agent) POST "/task"
               Sample.convert_request) =
      JObj [("result", JStr text); ("agent", JStr "travel_agent")].
Proof.
  split.
  - exact (proj1 (task_success_response_shape Sample.no_object Sample.no_errors Sample.no_pages
                    (Some Sample.echo_agent) Sample.plan_request)
             Sample.echo_agent
             (mkTaskRequest "Plan a 2-day trip to Paris" (Some "anonymous"))
             (mkTaskResponse "Done: Plan a 2-day trip to Paris" "travel_agent")
             eq_refl eq_refl eq_refl).
  - exact (proj2 (task_success_response_shape Sample.no_object Sample.no_errors Sample.no_pages
                    (Some Sample.echo_agent) Sample.convert_request) eq_refl).
Defined.

Lemma travel_agent_status_codes_witness :
  status (serve Sample.no_object Sample.no_errors Sample.no_pages None POST "/task"
            Sample.plan_request) = 503 /\
  status (serve Sample.no_object Sample.no_errors Sample.no_pages (Some Sample.failing_agent) POST "/task"
            Sample.plan_request) = 500 /\
  status (serve Sample.no_object Sample.no_errors Sample.no_pages (Some Sample.echo_agent) POST "/task"
            Sample.plan_request) = 200 /\
  status (serve Sample.no_object Sample.no_errors Sample.no_pages (Some Sample.echo_agent) POST "/task"
            (JObj [])) = 422.
Proof.
  pose (request := mkTaskRequest "Plan a 2-day trip to Paris" (Some "anonymous")).
  split; [|split; [|split]].
  - destruct (travel_agent_status_codes Sample.no_object Sample.no_errors Sample.no_pages
                None Sample.plan_request) as (_ & _ & _ & H & _).
    destruct (H request eq_refl) as (H503 & _).
    exact (proj2 H503 eq_refl).
  - destruct (travel_agent_status_codes Sample.no_object Sample.no_errors Sample.no_pages
                (Some Sample.failing_agent) Sample.plan_request) as (_ & _ & _ & H & _).
    destruct (H request eq_refl) as (_ & H500 & _).
    apply (proj2 H500). eexists _, _. split; reflexivity.
  - destruct (travel_agent_status_codes Sample.no_object Sample.no_errors Sample.no_pages
                (Some Sample.echo_agent) Sample.plan_request) as (_ & _ & _ & H & _).
    destruct (H request eq_refl) as (_ & _ & H200 & _).
    apply (proj2 H200). eexists _, _. split; reflexivity.
  - destruct (travel_agent_status_codes Sample.no_object Sample.no_errors Sample.no_pages
                (Some Sample.echo_agent) (JObj [])) as (_ & _ & _ & _ & H).
    exact (H eq_refl).
Defined.

(** C2 as stated fails for a body that is not accepted as a [TaskRequest]:
    with the agent not initialised, [POST /task] with the body [{}] is
    answered 422 and not 503, so [POST /task] does not answer 503 exactly
    when the agent is not initialised. *)
Lemma rejected_body_not_503_without_agent :
  parse_TaskRequest (JObj [] : json Z) = None /\
  status (serve Sample.no_object Sample.no_errors Sample.no_pages None POST "/task"
            (JObj [])) = 422 /\
  ~ (status (serve Sample.no_object Sample.no_errors Sample.no_pages None POST "/task"
               (JObj [])) = 503 <->
     (None : option (ChatAgent (pyobj := Empty_set))) = None).
Proof.
  split; [reflexivity|]. split; [reflexivity|].
  intros [_ H]. specialize (H eq_refl). vm_compute in H. discriminate H.
Qed.

(** C6. A body with a string [task] and no [user_id] is accepted with
    [user_id = "anonymous"]; one that gives a string [user_id] is accepted
    with that string; and whatever request is accepted, an omitted [user_id]
    reads ["anonymous"] and a supplied one is kept as supplied ([null]
    included). *)
Theorem task_request_user_id_default {N : Type} (body : json N) :
  (forall t,
     field "task" body = Some (JStr t) ->
     field "user_id" body = None ->
     parse_TaskRequest body = Some (mkTaskRequest t (Some "anonymous"))) /\
  (forall t u,
     field "task" body = Some (JStr t) ->
     field "user_id" body = Some (JStr u) ->
     parse_TaskRequest body = Some (mkTaskRequest t (Some u))) /\
  (forall request,
     parse_TaskRequest body = Some request ->
     (field "user_id" body = None -> user_id request = Some "anonymous") /\
     (forall u, field "user_id" body = Some (JStr u) -> user_id request = Some u) /\
     (field "user_id" body = Some JNull -> user_id request = None)).
Proof.
  unfold parse_TaskRequest, field.
  destruct body as [| | | |l|items];
    try (repeat split; intros; discriminate).
  split; [|split].
  - intros t -> ->. reflexivity.
  - intros t u -> ->. reflexivity.
  - intros request.
    destruct (dict_get "task" items) as [[| | |t| |]|]; try discriminate.
    destruct (dict_get "user_id" items) as [[| | |u| |]|];
      try discriminate; intros [= <-]; cbn [user_id]; repeat split; intros; congruence.
Qed.

Lemma task_request_user_id_default_witness :
  parse_TaskRequest Sample.plan_request =
    Some (mkTaskRequest "Plan a 2-day trip to Paris" (Some "anonymous")) /\
  parse_TaskRequest Sample.convert_request =
    Some (mkTaskRequest "Convert 500 USD to EUR" (Some "test_user")) /\
  user_id (mkTaskRequest "Plan a 2-day trip to Paris" (Some "anonymous")) =
    Some "anonymous".
Proof.
  destruct (task_request_user_id_default Sample.plan_request) as (Hdefault & _ & Hany).
  destruct (task_request_user_id_default Sample.convert_request) as (_ & Hkept & _).
  split; [exact (Hdefault _ eq_refl eq_refl)|].
  split; [exact (Hkept _ _ eq_refl eq_refl)|].
  exact (proj1 (Hany _ (Hdefault _ eq_refl eq_refl)) eq_refl).
Defined.

(** C5. The well-known path is answered with status 200 and the card, a JSON
    object whose [name] is the non-empty string ["travel_agent"], whose
    [description] and [version] are strings, and whose [capabilities.skills]
    is a list in which every element has string fields [id], [name] and
    [description] and a non-empty list of strings [examples]. *)
Theorem agent_card_document {N pyobj : Type}
    (pydantic_str : pyobj -> outcome string) (validation_errors : json N -> json N)
    (framework_answer : method -> string -> json N -> http_response N)
    (travel_agent : option ChatAgent) (body : json N) :
  serve pydantic_str validation_errors framework_answer travel_agent GET "/.well-known/agent.json" body =
    HttpResponse 200 card /\
  field "name" (card (N := N)) = Some (JStr "travel_agent") /\
  "travel_agent" <> EmptyString /\
  has_string "description" (card (N := N)) = true /\
  has_string "version" (card (N := N)) = true /\
  exists skills : list (json N),
    at_path ["capabilities"; "skills"] card = Some (JArr skills) /\
    forallb skill_well_formed skills = true /\
    Forall (fun s => exists id name description e es,
                       s = JObj [("id", JStr id); ("name", JStr name);
                                 ("description", JStr description);
                                 ("examples", JArr (map JStr (e :: es)))]) skills.
Proof.
  split; [reflexivity|]. split; [reflexivity|]. split; [discriminate|].
  split; [reflexivity|]. split; [reflexivity|].
  eexists. split; [reflexivity|]. split; [reflexivity|].
  repeat constructor; do 5 eexists; reflexivity.
Qed.

(** C7. The card advertises the task endpoint as [POST /task] and the health
    endpoint as [GET /health]; the application registers both routes, each
    under that method and no other, and every endpoint descriptor of the
    card names a registered route. *)
Theorem card_endpoints_match_routes {N : Type} :
  at_path ["endpoints"; "task"; "url"] (card (N := N)) = Some (JStr "/task") /\
  at_path ["endpoints"; "task"; "method"] (card (N := N)) =
    Some (JStr (method_name POST)) /\
  at_path ["endpoints"; "health"; "url"] (card (N := N)) = Some (JStr "/health") /\
  at_path ["endpoints"; "health"; "method"] (card (N := N)) =
    Some (JStr (method_name GET)) /\
  find_route POST "/task" = Some h_execute_task /\
  find_route GET "/health" = Some h_health /\
  methods_of "/task" = [POST] /\
  methods_of "/health" = [GET] /\
  exists descriptors,
    field "endpoints" (card (N := N)) = Some (JObj descriptors) /\
    map fst descriptors = ["task"; "health"] /\
    forallb (fun d => descriptor_registered (snd d)) descriptors = true.
Proof.
  repeat (split; [reflexivity|]).
  eexists. repeat split; reflexivity.
Qed.

(** ** Service Bus scripts *)

Import ServiceBus.

Lemma enumerate_lookup {A : Type} (l : list A) (start i : Z) (x : A) :
  (i, x) ∈ enumerate start l <->
  exists k : nat, l !! k = Some x /\ i = start + Z.of_nat k.
Proof.
  revert start. induction l as [|y l IH]; intros start; cbn [enumerate].
  - split; [intros H; inversion H | intros (k & Hk & _); discriminate].
  - rewrite elem_of_cons, IH. split.
    + intros [[= -> ->] | (k & Hk & ->)].
      * exists 0%nat. split; [reflexivity | lia].
      * exists (S k). split; [exact Hk | lia].
    + intros ([|k] & Hk & ->).
      * left. cbn in Hk. injection Hk as ->. f_equal. lia.
      * right. exists k. split; [exact Hk | lia].
Qed.

Lemma enumerate_functional {A : Type} (l : list A) (start i : Z) (x y : A) :
  (i, x) ∈ enumerate start l -> (i, y) ∈ enumerate start l -> x = y.
Proof.
  rewrite !enumerate_lookup. intros (k & Hk & ->) (k' & Hk' & E).
  assert (k = k') as -> by lia. congruence.
Qed.

Lemma completed_in_spec (trace : list event) (i : Z) :
  completed_in trace i = true <-> Completed i ∈ trace.
Proof.
  unfold completed_in. rewrite existsb_exists. split.
  - intros ([line | j] & Hin & H); [discriminate|].
    apply Z.eqb_eq in H as ->. now apply list_elem_of_In.
  - intros H. exists (Completed i). split; [now apply list_elem_of_In | apply Z.eqb_refl].
Qed.

Lemma no_completion_nil : no_completion [].
Proof. intros i H. inversion H. Qed.

Lemma no_completion_printed (lines : list string) : no_completion (map Printed lines).
Proof.
  intros i H. apply list_elem_of_In, in_map_iff in H as (l & [=] & _).
Qed.

Lemma no_completion_app (t1 t2 : list event) :
  no_completion t1 -> no_completion t2 -> no_completion (t1 ++ t2).
Proof. intros H1 H2 i. rewrite not_elem_of_app. split; [apply H1 | apply H2]. Qed.

(** Where a completion sits in a trace that opens with events other than
    completions. *)
Lemma split_at_completion (D t pre post : list event) (i j : Z) :
  no_completion D ->
  D ++ Completed j :: t = pre ++ Completed i :: post ->
  (pre = D /\ i = j /\ post = t) \/
  (exists pre2, pre = D ++ Completed j :: pre2 /\ t = pre2 ++ Completed i :: post).
Proof.
  revert pre. induction D as [|d D IH]; intros pre HD E.
  - destruct pre as [|p pre]; cbn in E.
    + injection E as -> ->. left. auto.
    + injection E as <- ->. right. exists pre. auto.
  - destruct pre as [|p pre]; cbn in E.
    + injection E as -> _. exfalso. apply (HD i). left.
    + injection E as <- E.
      destruct (IH pre) as [(-> & -> & ->) | (pre2 & -> & ->)]; [|exact E|auto|].
      * intros k Hk. apply (HD k). now right.
      * right. exists pre2. auto.
Qed.

Lemma split_before_tail (t tail pre post : list event) (i : Z) :
  no_completion tail ->
  t ++ tail = pre ++ Completed i :: post ->
  exists post1, t = pre ++ Completed i :: post1.
Proof.
  revert pre. induction t as [|x t IH]; intros pre Htail E; cbn in E.
  - exfalso. apply (Htail i). rewrite E. apply elem_of_app. right. left.
  - destruct pre as [|p pre]; cbn in E.
    + injection E as -> _. exists t. reflexivity.
    + injection E as <- E. destruct (IH pre Htail E) as (post1 & ->).
      exists post1. reflexivity.
Qed.

Section ReceiverProperties.

Variable print_ok : string -> bool.
Variable complete_ok : ServiceBusMessage -> bool.

Lemma acked_no_completion total ims trace :
  no_completion trace -> acked_after_display print_ok complete_ok total ims trace.
Proof.
  intros Hn pre i post ->. exfalso. apply (Hn i).
  apply elem_of_app. right. left.
Qed.

Lemma acked_after_printed total ims line trace :
  acked_after_display print_ok complete_ok total ims trace ->
  acked_after_display print_ok complete_ok total ims (Printed line :: trace).
Proof.
  intros H pre i post E. destruct pre as [|p pre]; [discriminate|].
  injection E as <- E. destruct (H _ _ _ E) as (msg & pre' & Hin & -> & Hok).
  exists msg, (Printed line :: pre'). auto.
Qed.

Lemma acked_before_tail total ims trace tail :
  no_completion tail ->
  acked_after_display print_ok complete_ok total ims trace ->
  acked_after_display print_ok complete_ok total ims (trace ++ tail).
Proof.
  intros Htail H pre i post E.
  destruct (split_before_tail _ _ _ _ _ Htail E) as (post1 & E1).
  exact (H _ _ _ E1).
Qed.

(** Printing a list of lines: all go through, or the loop stops at the first
    that does not. *)
Lemma io_for_print_cases (lines : list string) :
  (Forall (fun line => print_ok line = true) lines /\
   io_for (print print_ok) lines = (map Printed lines, Ret ())) \/
  (exists t e,
     io_for (print print_ok) lines = (t, Raise e) /\ no_completion t /\
     exists line, line ∈ lines /\ print_ok line = false).
Proof.
  induction lines as [|l lines IH].
  - left. split; [constructor | reflexivity].
  - cbn [io_for]. destruct (print_ok l) eqn:Hl.
    + replace (print print_ok l) with ([Printed l], Ret ())
        by (unfold print; now rewrite Hl).
      destruct IH as [(Hall & ->) | (t & e & -> & Hn & line & Hin & Hline)].
      * left. split; [now constructor | reflexivity].
      * right. exists (Printed l :: t), e. split; [reflexivity|]. split.
        -- intros i [[=] | H]%elem_of_cons. exact (Hn i H).
        -- exists line. split; [now right | exact Hline].
    + replace (print print_ok l)
        with (([], Raise (Exception "OSError" "write failed")) : io ())
        by (unfold print; now rewrite Hl).
      right. eexists [], _. split; [reflexivity|]. split; [apply no_completion_nil|].
      exists l. split; [left | exact Hl].
Qed.

(** One turn of the loop: the message is displayed in full and then
    completed, or the turn raises before any completion. *)
Lemma show_and_complete_cases (total i : Z) (msg : ServiceBusMessage) :
  (Forall (fun line => print_ok line = true) (display_lines total i msg) /\
   complete_ok msg = true /\
   show_and_complete print_ok complete_ok total (i, msg) =
     (map Printed (display_lines total i msg) ++ [Completed i], Ret ())) \/
  (exists t e,
     show_and_complete print_ok complete_ok total (i, msg) = (t, Raise e) /\
     no_completion t /\
     ((exists line, line ∈ display_lines total i msg /\ print_ok line = false) \/
      complete_ok msg = false)).
Proof.
  unfold show_and_complete.
  destruct (io_for_print_cases (display_lines total i msg))
    as [(Hall & ->) | (t & e & -> & Hn & Hline)].
  - unfold complete_message. destruct (complete_ok msg) eqn:Hc.
    + left. auto.
    + right. eexists _, _. split; [reflexivity|]. split.
      * rewrite app_nil_r. apply no_completion_printed.
      * now right.
  - right. exists t, e. split; [reflexivity|]. split; [exact Hn | now left].
Qed.

Lemma receive_loop_acked (total : Z) (ims : list (Z * ServiceBusMessage)) :
  acked_after_display print_ok complete_ok total ims
    (fst (io_for (show_and_complete print_ok complete_ok total) ims)).
Proof.
  induction ims as [|[i msg] ims IH].
  - apply acked_no_completion, no_completion_nil.
  - cbn [io_for].
    destruct (show_and_complete_cases total i msg)
      as [(Hall & Hc & ->) | (t & e & -> & Hn & _)].
    + cbn [mbind io_bind].
      destruct (io_for (show_and_complete print_ok complete_ok total) ims) as [t2 r] eqn:E2.
      cbn [fst] in *. rewrite <- app_assoc. cbn [app].
      intros pre j post E.
      destruct (split_at_completion _ _ _ _ _ _ (no_completion_printed _) E)
        as [(-> & -> & ->) | (pre2 & -> & ->)].
      * exists msg, []. repeat split; auto. left.
      * destruct (IH _ _ _ eq_refl) as (m & pre' & Hin & -> & Hok).
        exists m, (map Printed (display_lines total i msg) ++ Completed i :: pre').
        split; [now right|]. split; [|exact Hok].
        now rewrite <- app_assoc.
    + cbn [mbind io_bind fst].
      intros pre j post E. destruct (IH pre j post) as (m & pre' & Hin & H).
      * exfalso. apply (Hn j). rewrite E. apply elem_of_app. right. left.
      * exists m, pre'. split; [now right | exact H].
Qed.

End ReceiverProperties.

Lemma print_trace (print_ok : string -> bool) (line : string) :
  no_completion (fst (print print_ok line)).
Proof.
  unfold print. destruct (print_ok line); cbn [fst].
  - apply (no_completion_printed [line]).
  - apply no_completion_nil.
Qed.

Lemma print_then_trace {A : Type} (print_ok : string -> bool) (line : string) (k : io A) :
  fst (_ ← print print_ok line; k) =
    if print_ok line then Printed line :: fst k else [].
Proof.
  unfold print. destruct (print_ok line); [|reflexivity].
  cbn [mbind io_bind]. destruct k as [t r]. reflexivity.
Qed.

Lemma receive_responses_trace (print_ok : string -> bool)
    (complete_ok : ServiceBusMessage -> bool) (count timeout : Z)
    (received : outcome (list ServiceBusMessage)) :
  match received with
  | Ret messages =>
      acked_after_display print_ok complete_ok (Z.of_nat (length messages))
        (enumerate 1 messages)
        (fst (receive_responses print_ok complete_ok count timeout received))
  | Raise _ =>
      no_completion (fst (receive_responses print_ok complete_ok count timeout received))
  end.
Proof.
  unfold receive_responses. rewrite print_then_trace.
  match goal with |- context [print_ok ?w] => set (W := w) end.
  destruct received as [messages|e]; destruct (print_ok W).
  2: { apply acked_no_completion, no_completion_nil. }
  2: { apply (no_completion_printed [W]). }
  2: { apply no_completion_nil. }
  apply acked_after_printed. cbn [mbind io_bind]. cbn [app].
  destruct messages as [|m ms].
  - apply acked_no_completion.
    pose proof (print_trace print_ok "⏰ No responses received within timeout period") as Hp.
    destruct (print print_ok "⏰ No responses received within timeout period") as [t r].
    exact Hp.
  - set (messages := m :: ms). set (total := Z.of_nat (length messages)).
    pose proof (receive_loop_acked print_ok complete_ok total (enumerate 1 messages)) as Hloop.
    destruct (io_for (show_and_complete print_ok complete_ok total) (enumerate 1 messages))
      as [t [[]|e]]; cbn [fst] in Hloop; cbn [mbind io_bind].
    + match goal with |- context [print print_ok ?s] => set (S := s) end.
      pose proof (print_trace print_ok S) as Hp.
      destruct (print print_ok S) as [t' r]. cbn [fst app] in *.
      apply acked_before_tail; assumption.
    + exact Hloop.
Qed.

(** C4. In [receive_responses] a message is completed only after it has been
    processed in full: in the script's trace, every [Completed i] comes
    right after all the lines of message [i] were printed, each having gone
    through, and the broker accepted the completion. A message one of whose
    lines could not be printed, or whose completion the broker refused, is
    never completed: it stays with the broker for redelivery. *)
Theorem responses_completed_only_after_display
    (print_ok : string -> bool) (complete_ok : ServiceBusMessage -> bool)
    (count timeout : Z) (received : outcome (list ServiceBusMessage)) :
  let trace := fst (receive_responses print_ok complete_ok count timeout received) in
  (forall pre i post,
     trace = pre ++ Completed i :: post ->
     exists messages msg pre',
       received = Ret messages /\
       (i, msg) ∈ enumerate 1 messages /\
       pre = pre' ++ map Printed (display_lines (Z.of_nat (length messages)) i msg) /\
       Forall (fun line => print_ok line = true)
              (display_lines (Z.of_nat (length messages)) i msg) /\
       complete_ok msg = true) /\
  (forall messages i msg,
     received = Ret messages ->
     (i, msg) ∈ enumerate 1 messages ->
     ((exists line,
         line ∈ display_lines (Z.of_nat (length messages)) i msg /\
         print_ok line = false) \/
      complete_ok msg = false) ->
     (Completed i ∉ trace) /\ ((i, msg) ∈ unsettled messages trace)).
Proof.
  intros trace.
  pose proof (receive_responses_trace print_ok complete_ok count timeout received) as Ht.
  fold trace in Ht.
  assert (forall pre i post,
            trace = pre ++ Completed i :: post ->
            exists messages msg pre',
              received = Ret messages /\
              (i, msg) ∈ enumerate 1 messages /\
              pre = pre' ++ map Printed (display_lines (Z.of_nat (length messages)) i msg) /\
              Forall (fun line => print_ok line = true)
                     (display_lines (Z.of_nat (length messages)) i msg) /\
              complete_ok msg = true) as Hacked.
  { intros pre i post E. destruct received as [messages|e].
    - destruct (Ht _ _ _ E) as (msg & pre' & H). exists messages, msg, pre'. auto.
    - exfalso. apply (Ht i). rewrite E. apply elem_of_app. right. left. }
  split; [exact Hacked|].
  intros messages i msg -> Hin Hfail.
  assert (Completed i ∉ trace) as Hnot.
  { intros (pre & post & E)%list_elem_of_split.
    destruct (Hacked _ _ _ E) as (messages' & msg' & pre' & [= <-] & Hin' & _ & Hall & Hc).
    assert (msg' = msg) as -> by exact (enumerate_functional _ _ _ _ _ Hin' Hin).
    destruct Hfail as [(line & Hline & Hbad) | Hbad]; [|congruence].
    rewrite Forall_forall in Hall. specialize (Hall line Hline). congruence. }
  split; [exact Hnot|].
  unfold unsettled. apply list_elem_of_In, filter_In.
  split; [now apply list_elem_of_In|]. cbn [fst].
  destruct (completed_in trace i) eqn:Hc; [|reflexivity].
  apply completed_in_spec in Hc. contradiction.
Qed.

Lemma responses_completed_only_after_display_witness :
  let messages := [Sample.response_message; Sample.bare_message] in
  let trace :=
    fst (receive_responses Sample.broken_stdout (fun _ => true) 2 30 (Ret messages)) in
  (exists msg pre',
     (1, msg) ∈ enumerate 1 messages /\
     take 9 trace = pre' ++ map Printed (display_lines 2 1 msg)) /\
  (Completed 2 ∉ trace) /\
  ((2, Sample.bare_message) ∈ unsettled messages trace).
Proof.
  intros messages trace.
  destruct (responses_completed_only_after_display
              Sample.broken_stdout (fun _ => true) 2 30 (Ret messages))
    as [Hafter Hnever].
  fold trace in Hafter, Hnever. split.
  - destruct (Hafter (take 9 trace) 1 (drop 10 trace))
      as (messages' & msg & pre' & E & Hin & Hpre & _).
    + vm_compute. reflexivity.
    + injection E as <-. exists msg, pre'. split; [exact Hin | exact Hpre].
  - apply (Hnever messages 2 Sample.bare_message eq_refl).
    + right. left.
    + left. exists "User ID:       unknown". split; [|reflexivity].
      vm_compute. do 3 right. left.
Defined.

(** C3. With the client and the sender working, [send_task_to_queue] returns
    and has put one message at the end of the [agent-tasks] queue, leaving
    every other queue as it was; that message has the task text, and nothing
    else, as its body and carries exactly [user_id] and [preferred_agent] as
    application properties. If they raise, so does the call, and that is the
    only way for it not to return. [receive_responses] takes the result from
    the body of a response message and [user_id], [agent_used] and
    [original_task] from its application properties. *)
Theorem queue_messages_carry_attributes
    (link : outcome ()) (task_text uid : string)
    (bus : gmap string (list ServiceBusMessage)) :
  (exists message,
     send_task_to_queue (Ret ()) task_text uid bus =
       Ret (<["agent-tasks" := default [] (bus !! "agent-tasks") ++ [message]]> bus,
            message_id message) /\
     body message = task_text /\
     application_properties message !! "user_id" = Some uid /\
     application_properties message !! "preferred_agent" = Some EmptyString /\
     dom (application_properties message) = {["user_id"; "preferred_agent"]}) /\
  (forall e, send_task_to_queue (Raise e) task_text uid bus = Raise e) /\
  (forall bus' id,
     send_task_to_queue link task_text uid bus = Ret (bus', id) ->
     link = Ret () /\
     exists message,
       bus' !! "agent-tasks" = Some (default [] (bus !! "agent-tasks") ++ [message]) /\
       body message = task_text /\
       application_properties message !! "user_id" = Some uid /\
       application_properties message !! "preferred_agent" = Some EmptyString /\
       dom (application_properties message) = {["user_id"; "preferred_agent"]} /\
       (forall queue_name, queue_name <> "agent-tasks" ->
                           bus' !! queue_name = bus !! queue_name)) /\
  (forall msg,
     result (read_response msg) = body msg /\
     (forall u, application_properties msg !! "user_id" = Some u ->
                user_id (read_response msg) = u) /\
     (forall a, application_properties msg !! "agent_used" = Some a ->
                agent (read_response msg) = a) /\
     (forall t, application_properties msg !! "original_task" = Some t ->
                task (read_response msg) = t)) /\
  (forall r u a t mid,
     read_response
       (mkMessage r (<["user_id" := u]> (<["agent_used" := a]>
                       (<["original_task" := t]> ∅))) mid) =
       mkFields r u a t).
Proof.
  split; [|split; [|split; [|split]]].
  - eexists. split; [reflexivity|]. cbn [body application_properties].
    split; [reflexivity|].
    split; [apply lookup_insert_eq|].
    split; [rewrite lookup_insert_ne by discriminate; apply lookup_insert_eq|].
    rewrite !dom_insert_L, dom_empty_L; set_solver.
  - reflexivity.
  - intros bus' id. unfold send_task_to_queue. destruct link as [[]|e]; [|discriminate].
    intros [= <- <-]. split; [reflexivity|]. eexists.
    split; [apply lookup_insert_eq|]. cbn [body application_properties].
    split; [reflexivity|].
    split; [apply lookup_insert_eq|].
    split; [rewrite lookup_insert_ne by discriminate; apply lookup_insert_eq|].
    split; [rewrite !dom_insert_L, dom_empty_L; set_solver|].
    intros queue_name Hq. unfold queue_send. now rewrite lookup_insert_ne.
  - intros msg. unfold read_response; cbn [result user_id agent task].
    split; [reflexivity|]. repeat split; intros ? ->; reflexivity.
  - intros r u a t mid. unfold read_response, str_message.
    cbn [body application_properties].
    rewrite lookup_insert_eq, lookup_insert_ne, lookup_insert_eq by discriminate.
    rewrite !lookup_insert_ne, lookup_insert_eq by discriminate.
    reflexivity.
Qed.

Lemma queue_messages_carry_attributes_witness :
  (exists message,
     send_task_to_queue (Ret ()) "Find me restaurants in Paris" "test-user-002" ∅ =
       Ret (<["agent-tasks" := [message]]> ∅, message_id message) /\
     body message = "Find me restaurants in Paris" /\
     application_properties message !! "user_id" = Some "test-user-002" /\
     application_properties message !! "preferred_agent" = Some EmptyString) /\
  (exists message,
     queue_send "agent-tasks"
       (mkMessage "Find me restaurants in Paris"
          (<["user_id" := "test-user-002"]> (<["preferred_agent" := EmptyString]> ∅))
          None) ∅ !! "agent-tasks" = Some [message] /\
     body message = "Find me restaurants in Paris") /\
  user_id (read_response Sample.response_message) = "u1" /\
  agent (read_response Sample.response_message) = "travel_agent" /\
  task (read_response Sample.response_message) = "Convert 500 USD to EUR".
Proof.
  destruct (queue_messages_carry_attributes (Ret ()) "Find me restaurants in Paris"
              "test-user-002" ∅) as (Hput & _ & Hsend & Hread & _).
  split; [|split].
  - destruct Hput as (message & Hs & Hb & Hu & Hp & _).
    rewrite lookup_empty in Hs. exists message. auto.
  - destruct (Hsend _ None eq_refl) as (_ & message & Hq & Hb & _).
    rewrite lookup_empty in Hq. exists message. auto.
  - destruct (Hread Sample.response_message) as (_ & Hu & Ha & Ht).
    split; [exact (Hu _ eq_refl)|]. split; [exact (Ha _ eq_refl) | exact (Ht _ eq_refl)].
Defined.

(** * Further properties of the modelled code *)

(** ** Activity tools: indexing, short trips, unknown places *)

Lemma py_getitem_in_range {A : Type} (l : list A) (i : Z) :
  0 <= i < Z.of_nat (length l) -> exists x, py_getitem l i = Ret x.
Proof.
  intros [H0 Hn]. unfold py_getitem.
  replace (i <? 0) with false by (symmetry; apply Z.ltb_ge; lia).
  replace (0 <=? i) with true by (symmetry; apply Z.leb_le; lia).
  replace (i <? Z.of_nat (length l)) with true by (symmetry; apply Z.ltb_lt; lia).
  cbn [andb].
  destruct (l !! Z.to_nat i) as [x|] eqn:E; [eauto|].
  apply lookup_ge_None in E. lia.
Qed.

Lemma if_longer_returns {A : Type} (xs : list A) (i : Z)
    (add : A -> string -> string) (acc : string) :
  0 <= i -> exists s, if_longer xs i add acc = Ret s.
Proof.
  intros Hi. unfold if_longer.
  destruct (Z.of_nat (length xs) >? i) eqn:E; [|eexists; reflexivity].
  destruct (py_getitem_in_range xs i) as [x ->]; [lia|].
  eexists; reflexivity.
Qed.

Lemma if_nonempty_returns {A : Type} (xs : list A)
    (add : A -> string -> string) (acc : string) :
  exists s, if_nonempty xs add acc = Ret s.
Proof.
  destruct xs as [|x xs]; [eexists; reflexivity|].
  eexists. reflexivity.
Qed.

(** X1. The length tests of [create_itinerary] and [plan_day_trip] protect
    every index: whatever the attraction and restaurant lists, the body of the
    day loop returns for each day from 1 on, and the sections of a day trip
    always return. *)
Theorem length_guards_protect_indexing
    (attractions : list attraction) (restaurants : list restaurant)
    (day : Z) (text : string) :
  1 <= day ->
  (exists s, day_body attractions restaurants day text = Ret s) /\
  (exists s, trip_sections attractions restaurants text = Ret s).
Proof.
  intros Hday. split.
  - unfold day_body; cbv zeta.
    destruct (if_longer_returns attractions ((day - 1) * 3)
                (add_visit "**Morning (9:00 AM - 12:00 PM)**")
                (text +:+ "## Day " +:+ str_int day +:+ NL +:+ NL)) as [s1 ->]; [lia|].
    cbn [mbind outcome_bind].
    destruct (if_longer_returns restaurants ((day - 1) * 2)
                (add_meal "**Lunch (12:30 PM - 2:00 PM)**") s1) as [s2 ->]; [lia|].
    cbn [mbind outcome_bind].
    destruct (if_longer_returns attractions ((day - 1) * 3 + 1)
                (add_visit "**Afternoon (2:30 PM - 5:30 PM)**") s2) as [s3 ->]; [lia|].
    cbn [mbind outcome_bind].
    apply if_longer_returns. lia.
  - unfold trip_sections; cbv zeta.
    destruct (if_nonempty_returns attractions add_trip_visit
                (text +:+ "## Morning Adventure (9:00 AM - 12:00 PM)" +:+ NL)) as [s1 ->].
    cbn [mbind outcome_bind].
    destruct (if_nonempty_returns restaurants add_trip_lunch
                (s1 +:+ "## Lunch Break (12:30 PM - 2:00 PM)" +:+ NL)) as [s2 ->].
    cbn [mbind outcome_bind].
    destruct (if_longer_returns attractions 1 (fun attr => add_trip_visit attr)
                (s2 +:+ "## Afternoon Exploration (2:30 PM - 6:00 PM)" +:+ NL))
      as [s3 ->]; [lia|].
    cbn [mbind outcome_bind].
    apply if_longer_returns. lia.
Qed.

Lemma length_guards_protect_indexing_witness :
  (exists s, day_body [] [Restaurant "Roscioli" "Italian Deli" "€€€" (Rating 4 6)] 2
               "plan" = Ret s) /\
  (exists s, trip_sections [] [Restaurant "Roscioli" "Italian Deli" "€€€" (Rating 4 6)]
               "plan" = Ret s).
Proof.
  apply (length_guards_protect_indexing
           [] [Restaurant "Roscioli" "Italian Deli" "€€€" (Rating 4 6)] 2 "plan").
  intros H; discriminate H.
Defined.

Lemma sample_data_cases (k : string) :
  (k <> "paris" /\ k <> "tokyo" /\ k <> "rome" /\
   ATTRACTIONS_DB !! k = None /\ RESTAURANT_DB !! k = None) \/
  ((k = "paris" \/ k = "tokyo" \/ k = "rome") /\
   exists attractions restaurants,
     ATTRACTIONS_DB !! k = Some attractions /\ RESTAURANT_DB !! k = Some restaurants).
Proof.
  destruct (decide (k = "paris")) as [->|Hp];
    [right; split; [auto|]; eexists _, _; split; reflexivity|].
  destruct (decide (k = "tokyo")) as [->|Ht];
    [right; split; [auto|]; eexists _, _; split; reflexivity|].
  destruct (decide (k = "rome")) as [->|Hr];
    [right; split; [auto|]; eexists _, _; split; reflexivity|].
  left. repeat (split; [assumption|]). split.
  - now apply attractions_unknown.
  - unfold RESTAURANT_DB. rewrite !lookup_insert_ne by congruence. apply lookup_empty.
Qed.

Lemma for_each_returns {A S : Type} (body : A -> S -> outcome S) (l : list A) :
  (forall x, x ∈ l -> forall s, exists s', body x s = Ret s') ->
  forall s, exists s', for_each body l s = Ret s'.
Proof.
  induction l as [|x l IH]; intros Hbody s; cbn [for_each].
  - eexists; reflexivity.
  - destruct (Hbody x (list_elem_of_here x l) s) as [s1 ->]. cbn [mbind outcome_bind].
    apply IH. intros y Hy. apply Hbody. now right.
Qed.

Lemma py_range_lower_bound (lo hi x : Z) : x ∈ py_range lo hi -> lo <= x.
Proof.
  unfold py_range. intros H. apply list_elem_of_In, in_map_iff in H as (i & <- & _). lia.
Qed.

(** X2. [create_itinerary] and [plan_day_trip] never raise: for every
    destination, duration (zero and negative included), budget and interests
    they return a text. Both sample tables have the same cities, so the
    second lookup cannot fail, and no index is out of range. *)
Theorem itinerary_tools_never_raise
    (lower title : string -> string) (place extra : string) (duration_days : Z) :
  (exists s, create_itinerary lower title place duration_days extra = Ret s) /\
  (exists s, plan_day_trip lower title place extra = Ret s).
Proof.
  unfold create_itinerary, plan_day_trip; cbv zeta.
  destruct (sample_data_cases (lower place))
    as [(_ & _ & _ & -> & _) | (_ & a & r & -> & ->)].
  - split; eexists; reflexivity.
  - split.
    + apply for_each_returns. intros day Hday%py_range_lower_bound s.
      apply (length_guards_protect_indexing a r day s Hday).
    + apply (length_guards_protect_indexing a r 1). lia.
Qed.

Lemma for_each_appender {A : Type} (body : A -> string -> outcome string) (l : list A) :
  (forall x, appender (body x)) -> appender (for_each body l).
Proof.
  intros Hbody. induction l as [|x l IH].
  - intros acc. cbn [for_each].
    change (Ret acc = Ret (acc +:+ EmptyString)). now rewrite append_empty_r.
  - apply (appender_seq (body x) (for_each body l)); [apply Hbody | exact IH].
Qed.

(** X3. For a known destination the itinerary is the header followed by the
    sections of the first [min(duration_days, 3)] days: nothing but the header
    when [duration_days <= 0], day 1 for one day, days 1 and 2 for two. The
    sections are the same at every duration and budget. *)
Theorem create_itinerary_days
    (lower title : string -> string) (destination : string) :
  lower destination = "paris" \/ lower destination = "tokyo" \/
  lower destination = "rome" ->
  exists s1 s2 s3,
    String.prefix ("## Day 1" +:+ NL +:+ NL) s1 = true /\
    String.prefix ("## Day 2" +:+ NL +:+ NL) s2 = true /\
    String.prefix ("## Day 3" +:+ NL +:+ NL) s3 = true /\
    forall (duration_days : Z) (budget : string),
      create_itinerary lower title destination duration_days budget =
        Ret (itinerary_header title destination duration_days budget +:+
             (if duration_days <=? 0 then EmptyString
              else if duration_days =? 1 then s1
              else if duration_days =? 2 then s1 +:+ s2
              else s1 +:+ s2 +:+ s3)).
Proof.
  intros Hk.
  destruct (known_city_sections _ Hk)
    as (a & r & s1 & s2 & s3 & Ha & Hr & H1 & H2 & H3 & P1 & P2 & P3).
  exists s1, s2, s3. repeat (split; [assumption|]).
  intros n budget. unfold create_itinerary; cbv zeta. rewrite Ha, Hr.
  set (header := itinerary_header title destination n budget).
  destruct (Z.leb_spec n 0) as [Hn|Hn].
  { replace (py_range 1 (Z.min (n + 1) 4)) with (@nil Z).
    - cbn [for_each]. now rewrite append_empty_r.
    - unfold py_range. replace (Z.to_nat (Z.min (n + 1) 4 - 1)) with 0%nat by lia.
      reflexivity. }
  destruct (Z.eqb_spec n 1) as [->|Hn1].
  { change (py_range 1 (Z.min (1 + 1) 4)) with [1]. cbn [for_each].
    rewrite (day_body_appender a r 1 header), H1. reflexivity. }
  destruct (Z.eqb_spec n 2) as [->|Hn2].
  { change (py_range 1 (Z.min (2 + 1) 4)) with [1; 2]. cbn [for_each].
    rewrite (day_body_appender a r 1 header), H1. cbn [mbind outcome_bind mret outcome_ret].
    rewrite (day_body_appender a r 2 (header +:+ s1)), H2.
    cbn [mbind outcome_bind mret outcome_ret]. now rewrite append_assoc. }
  rewrite (py_range_capped n) by lia.
  rewrite for_each_three_days, H1, H2, H3. reflexivity.
Qed.

Lemma create_itinerary_days_witness :
  exists s1 s2 s3,
    create_itinerary ascii_lower ascii_title "TOKYO" (-4) "luxury" =
      Ret (itinerary_header ascii_title "TOKYO" (-4) "luxury") /\
    create_itinerary ascii_lower ascii_title "TOKYO" 2 "budget" =
      Ret (itinerary_header ascii_title "TOKYO" 2 "budget" +:+ s1 +:+ s2) /\
    create_itinerary ascii_lower ascii_title "TOKYO" 9 "budget" =
      Ret (itinerary_header ascii_title "TOKYO" 9 "budget" +:+ s1 +:+ s2 +:+ s3).
Proof.
  destruct (create_itinerary_days ascii_lower ascii_title "TOKYO")
    as (s1 & s2 & s3 & _ & _ & _ & H).
  - right; left; reflexivity.
  - exists s1, s2, s3. split; [|split].
    + rewrite (H (-4) "luxury"). cbn [Z.leb Z.compare].
      now rewrite append_empty_r.
    + exact (H 2 "budget").
    + exact (H 9 "budget").
Defined.

(** X4. The four activity tools know the same places. A location whose
    lower-cased name is not a sample city gets the no-data message of each
    tool, quoted as typed; a sample city, in any letter case, gets it from
    none of them. *)
Theorem activity_tools_agree_on_known_places
    (lower title : string -> string) (location a1 a2 : string) (n : Z) :
  let itinerary_msg :=
    "No data available for " +:+ location +:+
    ". Available destinations: Paris, Tokyo, Rome" in
  let restaurant_msg :=
    "No restaurant data for " +:+ location +:+ ". Available cities: Paris, Tokyo, Rome" in
  let attraction_msg :=
    "No attraction data for " +:+ location +:+ ". Available cities: Paris, Tokyo, Rome" in
  let trip_msg :=
    "No data for " +:+ location +:+ ". Available cities: Paris, Tokyo, Rome" in
  (lower location <> "paris" -> lower location <> "tokyo" -> lower location <> "rome" ->
   create_itinerary lower title location n a1 = Ret itinerary_msg /\
   suggest_restaurants lower title location a1 a2 = restaurant_msg /\
   find_attractions lower title location a1 = attraction_msg /\
   plan_day_trip lower title location a1 = Ret trip_msg) /\
  (lower location = "paris" \/ lower location = "tokyo" \/ lower location = "rome" ->
   create_itinerary lower title location n a1 <> Ret itinerary_msg /\
   suggest_restaurants lower title location a1 a2 <> restaurant_msg /\
   find_attractions lower title location a1 <> attraction_msg /\
   plan_day_trip lower title location a1 <> Ret trip_msg).
Proof.
  cbv zeta. split.
  - intros Hp Ht Hr.
    destruct (sample_data_cases (lower location))
      as [(_ & _ & _ & Ha & Hre) | ([? | [? | ?]] & _)]; try contradiction.
    unfold create_itinerary, suggest_restaurants, find_attractions, plan_day_trip;
      cbv zeta. rewrite Ha, Hre. repeat split; reflexivity.
  - intros Hk. split; [|split; [|split]].
    + destruct (create_itinerary_days lower title location Hk) as (s1 & s2 & s3 & _ & _ & _ & H).
      rewrite H. intros E. injection E as E. discriminate E.
    + unfold suggest_restaurants; cbv zeta.
      destruct Hk as [-> | [-> | ->]]; intros E; vm_compute in E; discriminate E.
    + unfold find_attractions; cbv zeta.
      destruct Hk as [-> | [-> | ->]]; intros E; vm_compute in E; discriminate E.
    + destruct (itinerary_tools_never_raise lower title location a1 0) as [_ [s Hs]].
      rewrite Hs. intros [= ->]. revert Hs.
      unfold plan_day_trip; cbv zeta.
      destruct Hk as [-> | [-> | ->]]; intros E; vm_compute in E; discriminate E.
Qed.

Lemma activity_tools_agree_on_known_places_witness :
  suggest_restaurants ascii_lower ascii_title "Oslo" "any" "moderate" =
    "No restaurant data for Oslo. Available cities: Paris, Tokyo, Rome" /\
  plan_day_trip ascii_lower ascii_title "Oslo" "culture" =
    Ret "No data for Oslo. Available cities: Paris, Tokyo, Rome" /\
  find_attractions ascii_lower ascii_title "rOmE" "museum" <>
    "No attraction data for rOmE. Available cities: Paris, Tokyo, Rome".
Proof.
  destruct (activity_tools_agree_on_known_places
              ascii_lower ascii_title "Oslo" "any" "moderate" 2) as [Hunknown _].
  destruct (Hunknown ltac:(discriminate) ltac:(discriminate) ltac:(discriminate))
    as (_ & Hr & _ & _).
  destruct (activity_tools_agree_on_known_places
              ascii_lower ascii_title "Oslo" "culture" "x" 2) as [Hunknown' _].
  destruct (Hunknown' ltac:(discriminate) ltac:(discriminate) ltac:(discriminate))
    as (_ & _ & _ & Hp).
  destruct (activity_tools_agree_on_known_places
              ascii_lower ascii_title "rOmE" "museum" "x" 2) as [_ Hknown].
  destruct (Hknown (or_intror (or_intror eq_refl))) as (_ & _ & Hf & _).
  split; [exact Hr|]. split; [exact Hp | exact Hf].
Defined.

Lemma add_trip_visit_acc a acc : add_trip_visit a acc = acc +:+ add_trip_visit a EmptyString.
Proof. unfold add_trip_visit; cbv zeta. now rewrite !append_assoc. Qed.

Lemma add_trip_lunch_acc r acc : add_trip_lunch r acc = acc +:+ add_trip_lunch r EmptyString.
Proof. unfold add_trip_lunch; cbv zeta. now rewrite !append_assoc. Qed.

Lemma add_trip_dinner_acc r acc :
  add_trip_dinner r acc = acc +:+ add_trip_dinner r EmptyString.
Proof. unfold add_trip_dinner; cbv zeta. now rewrite !append_assoc. Qed.

Lemma if_nonempty_appender {A : Type} (xs : list A) (add : A -> string -> string) :
  (forall x acc, add x acc = acc +:+ add x EmptyString) ->
  appender (if_nonempty xs add).
Proof.
  intros Hadd acc. unfold if_nonempty. destruct xs as [|x0 xs].
  - change (Ret acc = Ret (acc +:+ EmptyString)). now rewrite append_empty_r.
  - destruct (py_getitem (x0 :: xs) 0) as [x|e]; [|reflexivity].
    change (Ret (add x acc) = Ret (acc +:+ add x EmptyString)).
    now rewrite Hadd.
Qed.

Lemma trip_sections_appender attractions restaurants :
  appender (trip_sections attractions restaurants).
Proof.
  unfold trip_sections; cbv zeta.
  apply (appender_seq (fun acc => if_nonempty _ _ (acc +:+ _))).
  { apply appender_after_append, if_nonempty_appender, add_trip_visit_acc. }
  apply (appender_seq (fun acc => if_nonempty _ _ (acc +:+ _))).
  { apply appender_after_append, if_nonempty_appender, add_trip_lunch_acc. }
  apply (appender_seq (fun acc => if_longer _ _ _ (acc +:+ _))).
  { apply appender_after_append, if_longer_appender, add_trip_visit_acc. }
  apply appender_after_append, if_longer_appender, add_trip_dinner_acc.
Qed.

(** X5. [interests] reaches the day trip plan only through its [Focus]
    line: for a known place the plan is the title line, the focus line and
    then a text that does not depend on [interests] and holds the four
    sections, morning, lunch, afternoon and evening, in that order. *)
Theorem plan_day_trip_focus_line
    (lower title : string -> string) (start_location : string) :
  lower start_location = "paris" \/ lower start_location = "tokyo" \/
  lower start_location = "rome" ->
  exists morning lunch afternoon evening,
    String.prefix ("## Morning Adventure (9:00 AM - 12:00 PM)" +:+ NL +:+ "**Visit**: ")
                  morning = true /\
    String.prefix ("## Lunch Break (12:30 PM - 2:00 PM)" +:+ NL +:+ "**Dining**: ")
                  lunch = true /\
    String.prefix ("## Afternoon Exploration (2:30 PM - 6:00 PM)" +:+ NL +:+ "**Visit**: ")
                  afternoon = true /\
    String.prefix ("## Evening Experience (7:00 PM - 9:00 PM)" +:+ NL +:+ "**Dinner**: ")
                  evening = true /\
    forall interests,
      plan_day_trip lower title start_location interests =
        Ret (("# Day Trip Plan: " +:+ title start_location +:+ NL) +:+
             ("**Focus**: " +:+ title interests +:+ NL +:+ NL) +:+
             morning +:+ lunch +:+ afternoon +:+ evening).
Proof.
  intros Hk.
  assert (exists a r morning lunch afternoon evening,
            ATTRACTIONS_DB !! lower start_location = Some a /\
            RESTAURANT_DB !! lower start_location = Some r /\
            trip_sections a r EmptyString =
              Ret (morning +:+ lunch +:+ afternoon +:+ evening) /\
            String.prefix ("## Morning Adventure (9:00 AM - 12:00 PM)" +:+ NL +:+ "**Visit**: ")
                          morning = true /\
            String.prefix ("## Lunch Break (12:30 PM - 2:00 PM)" +:+ NL +:+ "**Dining**: ")
                          lunch = true /\
            String.prefix
              ("## Afternoon Exploration (2:30 PM - 6:00 PM)" +:+ NL +:+ "**Visit**: ")
              afternoon = true /\
            String.prefix ("## Evening Experience (7:00 PM - 9:00 PM)" +:+ NL +:+ "**Dinner**: ")
                          evening = true)
    as (a & r & m & l & af & ev & Ha & Hr & Hs & P1 & P2 & P3 & P4).
  { destruct Hk as [-> | [-> | ->]]; eexists _, _.
    - exists (add_trip_visit (Attraction "Eiffel Tower" "Monument" "2-3 hours" "€26")
                ("## Morning Adventure (9:00 AM - 12:00 PM)" +:+ NL)),
             (add_trip_lunch (Restaurant "Le Comptoir du Relais" "French Bistro" "€€€" (Rating 4 5))
                ("## Lunch Break (12:30 PM - 2:00 PM)" +:+ NL)),
             (add_trip_visit (Attraction "Louvre Museum" "Museum" "3-4 hours" "€17")
                ("## Afternoon Exploration (2:30 PM - 6:00 PM)" +:+ NL)),
             (add_trip_dinner (Restaurant "L'As du Fallafel" "Middle Eastern" "€" (Rating 4 7))
                ("## Evening Experience (7:00 PM - 9:00 PM)" +:+ NL)).
      split; [reflexivity|]. split; [reflexivity|].
      split; [vm_compute; reflexivity|]. repeat split.
    - exists (add_trip_visit (Attraction "Senso-ji Temple" "Temple" "1-2 hours" "Free")
                ("## Morning Adventure (9:00 AM - 12:00 PM)" +:+ NL)),
             (add_trip_lunch (Restaurant "Sukiyabashi Jiro" "Sushi" "€€€€" (Rating 4 9))
                ("## Lunch Break (12:30 PM - 2:00 PM)" +:+ NL)),
             (add_trip_visit (Attraction "Tokyo Skytree" "Observation Tower" "2-3 hours" "¥2100")
                ("## Afternoon Exploration (2:30 PM - 6:00 PM)" +:+ NL)),
             (add_trip_dinner (Restaurant "Ichiran Ramen" "Ramen" "€" (Rating 4 5))
                ("## Evening Experience (7:00 PM - 9:00 PM)" +:+ NL)).
      split; [reflexivity|]. split; [reflexivity|].
      split; [vm_compute; reflexivity|]. repeat split.
    - exists (add_trip_visit (Attraction "Colosseum" "Historic Site" "2-3 hours" "€18")
                ("## Morning Adventure (9:00 AM - 12:00 PM)" +:+ NL)),
             (add_trip_lunch (Restaurant "Roscioli" "Italian Deli" "€€€" (Rating 4 6))
                ("## Lunch Break (12:30 PM - 2:00 PM)" +:+ NL)),
             (add_trip_visit (Attraction "Vatican Museums" "Museum" "3-4 hours" "€17")
                ("## Afternoon Exploration (2:30 PM - 6:00 PM)" +:+ NL)),
             (add_trip_dinner (Restaurant "Pizzarium" "Pizza" "€" (Rating 4 8))
                ("## Evening Experience (7:00 PM - 9:00 PM)" +:+ NL)).
      split; [reflexivity|]. split; [reflexivity|].
      split; [vm_compute; reflexivity|]. repeat split. }
  exists m, l, af, ev. repeat (split; [assumption|]).
  intros interests. unfold plan_day_trip; cbv zeta. rewrite Ha, Hr.
  rewrite trip_sections_appender, Hs. cbn [mbind outcome_bind mret outcome_ret].
  now rewrite !append_assoc.
Qed.

Lemma plan_day_trip_focus_line_witness :
  exists rest,
    plan_day_trip ascii_lower ascii_title "Rome" "food" =
      Ret ("# Day Trip Plan: Rome" +:+ NL +:+ "**Focus**: Food" +:+ NL +:+ NL +:+ rest) /\
    plan_day_trip ascii_lower ascii_title "Rome" "street art" =
      Ret ("# Day Trip Plan: Rome" +:+ NL +:+ "**Focus**: Street Art" +:+ NL +:+ NL +:+ rest).
Proof.
  destruct (plan_day_trip_focus_line ascii_lower ascii_title "Rome")
    as (m & l & af & ev & _ & _ & _ & _ & H).
  - right; right; reflexivity.
  - exists (m +:+ l +:+ af +:+ ev). split; [exact (H "food") | exact (H "street art")].
Defined.

(** ** Currency tools: what the answers say about the service's body *)

Section CurrencyFurther.

Context {rt : Runtime}.
Variable http_get : string -> list (string * json num) -> outcome (json num).

Lemma py_subscript_Ret (container : json num) (key : string) (v : json num) :
  py_subscript container key = Ret v ->
  exists items, container = JObj items /\ dict_get key items = Some v.
Proof.
  destruct container as [| | | | |items]; cbn; try discriminate.
  destruct (dict_get key items) as [w|] eqn:E; [|discriminate].
  intros [= ->]. eauto.
Qed.

Lemma rate_missing_no_rates items currency :
  dict_get "rates" items = None -> rate_missing (JObj items) currency = Ret true.
Proof. intros H. unfold rate_missing, py_in. rewrite H. reflexivity. Qed.

Lemma rate_missing_no_currency items rs currency :
  dict_get "rates" items = Some (JObj rs) ->
  dict_get currency rs = None ->
  rate_missing (JObj items) currency = Ret true.
Proof.
  intros Hr Hc. unfold rate_missing.
  rewrite (py_in_dict _ _ _ Hr). cbn [mbind outcome_bind negb].
  unfold py_subscript. rewrite Hr. cbn [mbind outcome_bind mret outcome_ret].
  unfold py_in. rewrite Hc. reflexivity.
Qed.

Lemma get_exchange_rate_try_Ret currency_from currency_to date s :
  get_exchange_rate_try http_get currency_from currency_to date = Ret s ->
  s = "Could not retrieve rate for " +:+ currency_from +:+ " to " +:+ currency_to \/
  exists items rs rate rate_text,
    http_get (FRANKFURTER_API +:+ "/" +:+ date)
      [("from", JStr (upper currency_from)); ("to", JStr (upper currency_to))] =
      Ret (JObj items) /\
    dict_get "rates" items = Some (JObj rs) /\
    dict_get (upper currency_to) rs = Some rate /\
    py_format_f 4 rate = Ret rate_text /\
    s = "Exchange rate on " +:+
        py_format (from_option id (JStr date) (dict_get "date" items)) +:+ ": " +:+
        "1 " +:+ upper currency_from +:+ " = " +:+ rate_text +:+ " " +:+
        upper currency_to.
Proof.
  unfold get_exchange_rate_try; cbv zeta.
  destruct (http_get _ _) as [data|e] eqn:Hg; [|discriminate].
  cbn [mbind outcome_bind].
  destruct (rate_missing data (upper currency_to)) as [[|]|e]; [| |discriminate].
  { intros [= <-]. now left. }
  cbn [mbind outcome_bind].
  destruct (py_subscript data "rates") as [rates|e] eqn:Hs; [|discriminate].
  apply py_subscript_Ret in Hs as (items & -> & Hr).
  cbn [mbind outcome_bind].
  destruct (py_subscript rates (upper currency_to)) as [rate|e] eqn:Hc; [|discriminate].
  apply py_subscript_Ret in Hc as (rs & -> & Hc).
  cbn [mbind outcome_bind py_get mret outcome_ret].
  destruct (py_format_f 4 rate) as [rate_text|e] eqn:Hf; [|discriminate].
  intros [= <-]. right. exists items, rs, rate, rate_text. auto.
Qed.

Lemma get_exchange_rate_try_present currency_from currency_to date items rs rate rate_text :
  http_get (FRANKFURTER_API +:+ "/" +:+ date)
    [("from", JStr (upper currency_from)); ("to", JStr (upper currency_to))] =
    Ret (JObj items) ->
  dict_get "rates" items = Some (JObj rs) ->
  dict_get (upper currency_to) rs = Some rate ->
  py_format_f 4 rate = Ret rate_text ->
  get_exchange_rate_try http_get currency_from currency_to date =
    Ret ("Exchange rate on " +:+
         py_format (from_option id (JStr date) (dict_get "date" items)) +:+ ": " +:+
         "1 " +:+ upper currency_from +:+ " = " +:+ rate_text +:+ " " +:+
         upper currency_to).
Proof.
  intros Hg Hr Hc Hf. unfold get_exchange_rate_try; cbv zeta.
  rewrite Hg. cbn [mbind outcome_bind].
  rewrite (rate_missing_present _ _ _ _ Hr Hc). cbn [mbind outcome_bind].
  unfold py_subscript. rewrite Hr. cbn [mbind outcome_bind mret outcome_ret].
  rewrite Hc. cbn [mbind outcome_bind mret outcome_ret py_get].
  rewrite Hf. reflexivity.
Qed.

Lemma ltb_true_le (a b : string) : String.ltb a b = true -> String.le a b.
Proof.
  unfold String.le, String.leb, String.ltb.
  destruct (a ?= b)%string; [discriminate | intros _; exact I | discriminate].
Qed.

Lemma ltb_false_le (a b : string) : String.ltb a b = false -> String.le b a.
Proof.
  unfold String.le, String.leb, String.ltb. rewrite (String.compare_antisym a b).
  destruct (b ?= a)%string; cbn; [intros _; exact I | intros _; exact I | discriminate].
Qed.

Lemma insert_by_key_perm (kv : string * json num) l : insert_by_key kv l ≡ₚ kv :: l.
Proof.
  induction l as [|kv' l IH]; cbn [insert_by_key]; [reflexivity|].
  destruct (String.ltb (fst kv) (fst kv')); [reflexivity|].
  rewrite IH. apply Permutation_swap.
Qed.

Lemma py_sorted_perm (items : list (string * json num)) : py_sorted items ≡ₚ items.
Proof.
  induction items as [|kv items IH]; [reflexivity|].
  unfold py_sorted in *. cbn [fold_right]. rewrite insert_by_key_perm. now rewrite IH.
Qed.

Lemma insert_by_key_sorted (kv : string * json num) l :
  StronglySorted key_le l -> StronglySorted key_le (insert_by_key kv l).
Proof.
  induction l as [|kv' l IH]; intros Hs; cbn [insert_by_key].
  - repeat constructor.
  - apply StronglySorted_inv in Hs as [Hs Hall].
    destruct (String.ltb (fst kv) (fst kv')) eqn:E.
    + apply ltb_true_le in E. constructor; [now constructor|].
      constructor; [exact E|].
      eapply Forall_impl; [exact Hall|]. intros x Hx. unfold key_le in *.
      now transitivity (fst kv').
    + apply ltb_false_le in E. constructor; [now apply IH|].
      rewrite insert_by_key_perm. now constructor.
Qed.

Lemma py_sorted_sorted (items : list (string * json num)) :
  StronglySorted key_le (py_sorted items).
Proof.
  induction items as [|kv items IH]; [constructor|].
  unfold py_sorted in *. cbn [fold_right]. now apply insert_by_key_sorted.
Qed.

(** Two orderings by key of the same items, their keys distinct, coincide. *)
Lemma sorted_by_key_unique (l1 l2 : list (string * json num)) :
  StronglySorted key_le l1 -> StronglySorted key_le l2 ->
  l1 ≡ₚ l2 -> NoDup (map fst l1) -> l1 = l2.
Proof.
  revert l2. induction l1 as [|x l1 IH]; intros l2 H1 H2 Hp Hn.
  - now apply Permutation_nil in Hp.
  - destruct l2 as [|y l2]; [now apply Permutation_sym, Permutation_nil in Hp|].
    apply StronglySorted_inv in H1 as [H1 Hx].
    apply StronglySorted_inv in H2 as [H2 Hy].
    apply NoDup_cons in Hn as [Hfresh Hn].
    assert (x = y) as <-.
    { assert (x ∈ y :: l2) as Hxin by (rewrite <- Hp; left).
      assert (y ∈ x :: l1) as Hyin by (rewrite Hp; left).
      apply elem_of_cons in Hxin as [?|Hxin]; [assumption|].
      apply elem_of_cons in Hyin as [?|Hyin]; [congruence|].
      rewrite Forall_forall in Hx, Hy.
      assert (fst x = fst y) as Hk.
      { apply (anti_symm String.le); [apply Hx | apply Hy]; assumption. }
      exfalso. apply Hfresh. rewrite Hk.
      apply list_elem_of_In, in_map, list_elem_of_In, Hyin. }
    f_equal. apply IH; try assumption. now apply Permutation_cons_inv in Hp.
Qed.

Lemma currency_lines_fold (items : list (string * json num)) (result : string) :
  fold_left
    (fun result '(code, name) =>
       result +:+ ("  " +:+ code +:+ ": " +:+ py_format name +:+ NL))
    items result = result +:+ currency_lines items.
Proof.
  revert result. induction items as [|[code name] items IH]; intros result.
  - cbn. now rewrite append_empty_r.
  - cbn [fold_left currency_lines]. rewrite IH. unfold currency_line; cbn [fst snd].
    now rewrite !append_assoc.
Qed.

Lemma get_supported_currencies_dict items :
  http_get (FRANKFURTER_API +:+ "/currencies") [] = Ret (JObj items) ->
  get_supported_currencies http_get =
    Ret ("Supported currencies:" +:+ NL +:+ currency_lines (py_sorted items)).
Proof.
  intros H. unfold get_supported_currencies, get_supported_currencies_try; cbv zeta.
  rewrite H. cbn [mbind outcome_bind py_items mret outcome_ret try_except].
  rewrite currency_lines_fold. now rewrite append_assoc.
Qed.

End CurrencyFurther.

(** X6. [get_exchange_rate] reports a rate exactly when the service's body
    has one: an answer that begins ["Exchange rate on "] means the body was a
    JSON object whose [rates] object holds the upper-cased target currency,
    and the line shows that rate and the body's [date], or the requested
    date when the body has none; conversely such a body, with a rate that
    formats, yields that line. *)
Theorem exchange_rate_line_needs_rate {rt : Runtime}
    (http_get : string -> list (string * json num) -> outcome (json num))
    (currency_from currency_to date : string) :
  let url := FRANKFURTER_API +:+ "/" +:+ date in
  let params := [("from", JStr (upper currency_from)); ("to", JStr (upper currency_to))] in
  let line items rate_text :=
    "Exchange rate on " +:+
    py_format (from_option id (JStr date) (dict_get "date" items)) +:+ ": " +:+
    "1 " +:+ upper currency_from +:+ " = " +:+ rate_text +:+ " " +:+
    upper currency_to in
  (forall s,
     get_exchange_rate http_get currency_from currency_to date = Ret s ->
     String.prefix "Exchange rate on " s = true ->
     exists items rs rate rate_text,
       http_get url params = Ret (JObj items) /\
       dict_get "rates" items = Some (JObj rs) /\
       dict_get (upper currency_to) rs = Some rate /\
       py_format_f 4 rate = Ret rate_text /\
       s = line items rate_text) /\
  (forall items rs rate rate_text,
     http_get url params = Ret (JObj items) ->
     dict_get "rates" items = Some (JObj rs) ->
     dict_get (upper currency_to) rs = Some rate ->
     py_format_f 4 rate = Ret rate_text ->
     get_exchange_rate http_get currency_from currency_to date =
       Ret (line items rate_text)).
Proof.
  cbv zeta. split.
  - intros s. unfold get_exchange_rate.
    destruct (get_exchange_rate_try http_get currency_from currency_to date)
      as [s0|[msg code text|cls msg]] eqn:Ht; cbn [try_except].
    + intros [= ->] Hp.
      destruct (get_exchange_rate_try_Ret _ _ _ _ _ Ht) as [-> | H]; [|exact H].
      vm_compute in Hp. discriminate Hp.
    + intros [= <-] Hp. vm_compute in Hp. discriminate Hp.
    + intros [= <-] Hp. vm_compute in Hp. discriminate Hp.
  - intros items rs rate rate_text Hg Hr Hc Hf. unfold get_exchange_rate.
    now rewrite (get_exchange_rate_try_present _ _ _ _ _ _ _ _ Hg Hr Hc Hf).
Qed.

Lemma exchange_rate_line_needs_rate_witness :
  (exists items,
     DecimalRuntime.sample_http "https://api.frankfurter.app/latest"
       [("from", JStr "USD"); ("to", JStr "EUR")] = Ret (JObj items)) /\
  get_exchange_rate (rt := DecimalRuntime.runtime) DecimalRuntime.sample_http
    "usd" "eur" "latest" = Ret "Exchange rate on 2024-01-15: 1 USD = 0.9247 EUR".
Proof.
  destruct (exchange_rate_line_needs_rate (rt := DecimalRuntime.runtime)
              DecimalRuntime.sample_http "usd" "eur" "latest") as [Honly Hif].
  cbv zeta in Honly, Hif. split.
  - destruct (Honly "Exchange rate on 2024-01-15: 1 USD = 0.9247 EUR" eq_refl eq_refl)
      as (items & _ & _ & _ & Hg & _).
    exists items. exact Hg.
  - exact (Hif _ _ _ "0.9247" eq_refl eq_refl eq_refl eq_refl).
Defined.

(** X7. When the service's body is a JSON object without [rates], or whose
    [rates] object lacks the upper-cased target currency, the tools answer
    ["Could not retrieve rate for ..."] and ["Could not convert ..."], naming
    the currencies as the caller typed them. *)
Theorem missing_rate_is_reported {rt : Runtime}
    (http_get : string -> list (string * json num) -> outcome (json num))
    (amount : num) (currency_from currency_to date : string)
    (items : list (string * json num)) :
  let url := FRANKFURTER_API +:+ "/" +:+ date in
  let params := [("from", JStr (upper currency_from)); ("to", JStr (upper currency_to))] in
  dict_get "rates" items = None \/
  (exists rs, dict_get "rates" items = Some (JObj rs) /\
              dict_get (upper currency_to) rs = None) ->
  (http_get url params = Ret (JObj items) ->
   get_exchange_rate http_get currency_from currency_to date =
     Ret ("Could not retrieve rate for " +:+ currency_from +:+ " to " +:+ currency_to)) /\
  (http_get url (("amount", JNum amount) :: params) = Ret (JObj items) ->
   convert_currency http_get amount currency_from currency_to date =
     Ret ("Could not convert " +:+ currency_from +:+ " to " +:+ currency_to)).
Proof.
  cbv zeta. intros Hmiss.
  assert (rate_missing (JObj items) (upper currency_to) = Ret true) as Hm.
  { destruct Hmiss as [H | (rs & Hr & Hc)].
    - now apply rate_missing_no_rates.
    - now apply (rate_missing_no_currency _ rs). }
  split; intros Hg.
  - unfold get_exchange_rate, get_exchange_rate_try; cbv zeta.
    rewrite Hg. cbn [mbind outcome_bind]. rewrite Hm. reflexivity.
  - unfold convert_currency, convert_currency_try; cbv zeta.
    rewrite Hg. cbn [mbind outcome_bind]. rewrite Hm. reflexivity.
Qed.

Lemma missing_rate_is_reported_witness :
  get_exchange_rate (rt := DecimalRuntime.runtime) DecimalRuntime.sample_http
    "usd" "gbp" "latest" = Ret "Could not retrieve rate for usd to gbp" /\
  convert_currency (rt := DecimalRuntime.runtime)
    (fun _ _ => Ret (JObj [("message", JStr "not found")]))
    (DecimalRuntime.Decimal false 5) "Usd" "Eur" "latest" =
    Ret "Could not convert Usd to Eur".
Proof.
  split.
  - refine (proj1 (missing_rate_is_reported (rt := DecimalRuntime.runtime)
                     DecimalRuntime.sample_http (DecimalRuntime.Decimal false 5)
                     "usd" "gbp" "latest" _ _) eq_refl).
    right. eexists. split; reflexivity.
  - refine (proj2 (missing_rate_is_reported (rt := DecimalRuntime.runtime)
                     (fun _ _ => Ret (JObj [("message", JStr "not found")]))
                     (DecimalRuntime.Decimal false 5)
                     "Usd" "Eur" "latest" _ _) eq_refl).
    left. reflexivity.
Defined.

(** X8. With [amount != 0], [convert_currency] reports as rate the quotient
    of the converted amount the service returned by [amount]; if that
    division raises (the converted amount is not a number, say) the answer is
    the ["Error converting currency: ..."] text with the exception's message. *)
Theorem convert_currency_reports_quotient {rt : Runtime}
    (http_get : string -> list (string * json num) -> outcome (json num))
    (amount : num) (currency_from currency_to date : string)
    (items rs : list (string * json num)) (converted : json num) :
  ne_zero amount = true ->
  http_get (FRANKFURTER_API +:+ "/" +:+ date)
    [("amount", JNum amount); ("from", JStr (upper currency_from));
     ("to", JStr (upper currency_to))] = Ret (JObj items) ->
  dict_get "rates" items = Some (JObj rs) ->
  dict_get (upper currency_to) rs = Some converted ->
  (forall rate amount_text converted_text rate_text,
     py_truediv converted amount = Ret rate ->
     format_f 2 amount = Ret amount_text ->
     py_format_f 2 converted = Ret converted_text ->
     format_f 4 rate = Ret rate_text ->
     convert_currency http_get amount currency_from currency_to date =
       Ret ("Conversion on " +:+
            py_format (from_option id (JStr date) (dict_get "date" items)) +:+
            ":" +:+ NL +:+
            amount_text +:+ " " +:+ upper currency_from +:+ " = " +:+
            converted_text +:+ " " +:+ upper currency_to +:+ NL +:+
            "Exchange rate: 1 " +:+ upper currency_from +:+ " = " +:+ rate_text +:+
            " " +:+ upper currency_to)) /\
  (forall cls msg,
     py_truediv converted amount = Raise (Exception cls msg) ->
     convert_currency http_get amount currency_from currency_to date =
       Ret ("Error converting currency: " +:+ msg)).
Proof.
  intros Hnz Hg Hr Hc.
  assert (forall k : num -> outcome string,
            convert_currency_try http_get amount currency_from currency_to date =
              (rate ← py_truediv converted amount;
               amount_text ← format_f 2 amount;
               converted_text ← py_format_f 2 converted;
               rate_text ← format_f 4 rate;
               mret ("Conversion on " +:+
                     py_format (from_option id (JStr date) (dict_get "date" items)) +:+
                     ":" +:+ NL +:+
                     amount_text +:+ " " +:+ upper currency_from +:+ " = " +:+
                     converted_text +:+ " " +:+ upper currency_to +:+ NL +:+
                     "Exchange rate: 1 " +:+ upper currency_from +:+ " = " +:+
                     rate_text +:+ " " +:+ upper currency_to))) as Htry.
  { intros _. unfold convert_currency_try; cbv zeta.
    rewrite Hg. cbn [mbind outcome_bind].
    rewrite (rate_missing_present _ _ _ _ Hr Hc). cbn [mbind outcome_bind].
    unfold py_subscript. rewrite Hr. cbn [mbind outcome_bind mret outcome_ret].
    rewrite Hc. cbn [mbind outcome_bind mret outcome_ret].
    rewrite Hnz. destruct (py_truediv converted amount); reflexivity. }
  specialize (Htry (fun _ => Ret EmptyString)).
  split.
  - intros rate amount_text converted_text rate_text Hd Ha Hcv Hrt.
    unfold convert_currency. rewrite Htry, Hd. cbn [mbind outcome_bind].
    rewrite Ha. cbn [mbind outcome_bind]. rewrite Hcv. cbn [mbind outcome_bind].
    rewrite Hrt. reflexivity.
  - intros cls msg Hd. unfold convert_currency. rewrite Htry, Hd. reflexivity.
Qed.

Lemma convert_currency_reports_quotient_witness :
  convert_currency (rt := DecimalRuntime.runtime) DecimalRuntime.sample_http
    (DecimalRuntime.Decimal true 500) "usd" "eur" "latest" =
    Ret ("Conversion on 2024-01-15:" +:+ NL +:+ "500.00 USD = 462.35 EUR" +:+ NL +:+
         "Exchange rate: 1 USD = 0.9247 EUR") /\
  convert_currency (rt := DecimalRuntime.runtime)
    (fun _ _ => Ret (JObj [("rates", JObj [("EUR", JStr "n/a")])]))
    (DecimalRuntime.Decimal true 500) "usd" "eur" "latest" =
    Ret "Error converting currency: unsupported operand type(s) for /: 'str' and 'float'".
Proof.
  split.
  - refine (proj1 (convert_currency_reports_quotient (rt := DecimalRuntime.runtime)
                     DecimalRuntime.sample_http (DecimalRuntime.Decimal true 500)
                     "usd" "eur" "latest" _ _ _ eq_refl eq_refl eq_refl eq_refl)
                  _ "500.00" "462.35" "0.9247" eq_refl eq_refl eq_refl eq_refl).
  - refine (proj2 (convert_currency_reports_quotient (rt := DecimalRuntime.runtime)
                     (fun _ _ => Ret (JObj [("rates", JObj [("EUR", JStr "n/a")])]))
                     (DecimalRuntime.Decimal true 500)
                     "usd" "eur" "latest" _ _ _ eq_refl eq_refl eq_refl eq_refl)
                  "TypeError" _ eq_refl).
Defined.

(** X9. For a JSON object body, [get_supported_currencies] lists every
    currency of the body exactly once, one line each, in ascending order of
    the codes. *)
Theorem supported_currencies_sorted {rt : Runtime}
    (http_get : string -> list (string * json num) -> outcome (json num))
    (items : list (string * json num)) :
  http_get (FRANKFURTER_API +:+ "/currencies") [] = Ret (JObj items) ->
  exists sorted,
    sorted ≡ₚ items /\
    StronglySorted key_le sorted /\
    get_supported_currencies http_get =
      Ret ("Supported currencies:" +:+ NL +:+ currency_lines sorted).
Proof.
  intros H. exists (py_sorted items).
  split; [apply py_sorted_perm|]. split; [apply py_sorted_sorted|].
  now apply get_supported_currencies_dict.
Qed.

Lemma supported_currencies_sorted_witness :
  exists sorted,
    sorted ≡ₚ [("USD", JStr "United States Dollar");
               ("AUD", JStr "Australian Dollar");
               ("EUR", JStr "Euro")] /\
    StronglySorted (key_le (rt := DecimalRuntime.runtime)) sorted /\
    get_supported_currencies (rt := DecimalRuntime.runtime)
      (fun _ _ => Ret (JObj [("USD", JStr "United States Dollar");
                             ("AUD", JStr "Australian Dollar");
                             ("EUR", JStr "Euro")])) =
      Ret ("Supported currencies:" +:+ NL +:+ currency_lines sorted).
Proof.
  exact (supported_currencies_sorted (rt := DecimalRuntime.runtime)
           (fun _ _ => Ret (JObj [("USD", JStr "United States Dollar");
                                  ("AUD", JStr "Australian Dollar");
                                  ("EUR", JStr "Euro")]))
           _ eq_refl).
Defined.

(** X10. The list of supported currencies does not depend on the order in
    which the service's body gives them: two bodies with the same items,
    their codes distinct, yield the same text. *)
Theorem supported_currencies_order_independent {rt : Runtime}
    (http1 http2 : string -> list (string * json num) -> outcome (json num))
    (items1 items2 : list (string * json num)) :
  http1 (FRANKFURTER_API +:+ "/currencies") [] = Ret (JObj items1) ->
  http2 (FRANKFURTER_API +:+ "/currencies") [] = Ret (JObj items2) ->
  items1 ≡ₚ items2 ->
  NoDup (map fst items1) ->
  get_supported_currencies http1 = get_supported_currencies http2.
Proof.
  intros H1 H2 Hp Hn.
  rewrite (get_supported_currencies_dict _ _ H1), (get_supported_currencies_dict _ _ H2).
  assert (py_sorted items1 = py_sorted items2) as ->; [|reflexivity].
  apply sorted_by_key_unique.
  - apply py_sorted_sorted.
  - apply py_sorted_sorted.
  - now rewrite !py_sorted_perm.
  - assert (map fst (py_sorted items1) ≡ₚ map fst items1) as ->; [|exact Hn].
    apply Permutation_map, py_sorted_perm.
Qed.

Lemma supported_currencies_order_independent_witness :
  get_supported_currencies (rt := DecimalRuntime.runtime)
    (fun _ _ => Ret (JObj [("USD", JStr "United States Dollar"); ("EUR", JStr "Euro")])) =
  get_supported_currencies (rt := DecimalRuntime.runtime)
    (fun _ _ => Ret (JObj [("EUR", JStr "Euro"); ("USD", JStr "United States Dollar")])).
Proof.
  apply (supported_currencies_order_independent (rt := DecimalRuntime.runtime)
           _ _ [("USD", JStr "United States Dollar"); ("EUR", JStr "Euro")]
           [("EUR", JStr "Euro"); ("USD", JStr "United States Dollar")]
           eq_refl eq_refl).
  - apply Permutation_swap.
  - apply NoDup_cons_2; [|apply NoDup_cons_2; [apply not_elem_of_nil | apply NoDup_nil_2]].
    apply not_elem_of_cons. split; [discriminate | apply not_elem_of_nil].
Defined.

(** ** Travel agent: routing, result text, what the answer depends on *)



(** X12. The result text of [execute_task] is the [response] attribute of
    the run result when it has one, whatever [str(result)] would give, and
    [str(result)] otherwise; an exception from [run], from [str(result)] or
    from the validation of a [response] that is not a string becomes a 500
    whose detail is ["Error executing task: "] followed by its message. *)
Theorem execute_task_result_text {pyobj : Type}
    (pydantic_str : pyobj -> outcome string)
    (a : ChatAgent) (request : TaskRequest) :
  (forall res s,
     run a (TravelAgent.task request) = Ret res ->
     response res = Some (inr s) ->
     execute_task pydantic_str (Some a) request =
       Returned (mkTaskResponse s "travel_agent")) /\
  (forall res s,
     run a (TravelAgent.task request) = Ret res ->
     response res = None ->
     str_result res = Ret s ->
     execute_task pydantic_str (Some a) request =
       Returned (mkTaskResponse s "travel_agent")) /\
  (forall e,
     run a (TravelAgent.task request) = Raise e ->
     execute_task pydantic_str (Some a) request =
       HTTPException 500 ("Error executing task: " +:+ str_exn e)) /\
  (forall res e,
     run a (TravelAgent.task request) = Ret res ->
     response res = None ->
     str_result res = Raise e ->
     execute_task pydantic_str (Some a) request =
       HTTPException 500 ("Error executing task: " +:+ str_exn e)) /\
  (forall res o e,
     run a (TravelAgent.task request) = Ret res ->
     response res = Some (inl o) ->
     pydantic_str o = Raise e ->
     execute_task pydantic_str (Some a) request =
       HTTPException 500 ("Error executing task: " +:+ str_exn e)).
Proof.
  unfold execute_task, execute_task_try.
  repeat split; intros.
  - rewrite H. cbn [mbind outcome_bind]. rewrite H0. reflexivity.
  - rewrite H. cbn [mbind outcome_bind]. rewrite H0, H1. reflexivity.
  - rewrite H. reflexivity.
  - rewrite H. cbn [mbind outcome_bind]. rewrite H0, H1. reflexivity.
  - rewrite H. cbn [mbind outcome_bind]. rewrite H0.
    cbn [mbind outcome_bind mret outcome_ret TaskResponse_init]. rewrite H1. reflexivity.
Qed.

Lemma execute_task_result_text_witness :
  execute_task Sample.no_object
    (Some {| run := fun _ =>
               Ret (RunResult (Some (inr "Paris in two days"))
                      (Raise (Exception "RuntimeError" "no text"))) |})
    (mkTaskRequest "Plan" None) =
    Returned (mkTaskResponse "Paris in two days" "travel_agent") /\
  execute_task Sample.no_object (Some Sample.failing_agent) (mkTaskRequest "Plan" None) =
    HTTPException 500 "Error executing task: model timed out".
Proof.
  split.
  - exact (proj1 (execute_task_result_text Sample.no_object
                    {| run := fun _ =>
                         Ret (RunResult (Some (inr "Paris in two days"))
                                (Raise (Exception "RuntimeError" "no text"))) |}
                    (mkTaskRequest "Plan" None))
             _ _ eq_refl eq_refl).
  - destruct (execute_task_result_text Sample.no_object Sample.failing_agent
                (mkTaskRequest "Plan" None)) as (_ & _ & H & _).
    exact (H _ eq_refl).
Defined.

(** X13. The answer to [POST /task] depends on the task text alone: two
    accepted bodies with the same [task], whatever their [user_id] and their
    other keys, get the same answer from the same agent. *)
Theorem task_answer_ignores_user_id {N pyobj : Type}
    (pydantic_str : pyobj -> outcome string) (validation_errors : json N -> json N)
    (framework_answer : method -> string -> json N -> http_response N)
    (travel_agent : option ChatAgent) (body1 body2 : json N)
    (request1 request2 : TaskRequest) :
  parse_TaskRequest body1 = Some request1 ->
  parse_TaskRequest body2 = Some request2 ->
  TravelAgent.task request1 = TravelAgent.task request2 ->
  serve pydantic_str validation_errors framework_answer travel_agent POST "/task" body1 =
  serve pydantic_str validation_errors framework_answer travel_agent POST "/task" body2.
Proof.
  intros H1 H2 Ht.
  rewrite (post_task_response _ _ _ _ _ _ H1), (post_task_response _ _ _ _ _ _ H2).
  destruct travel_agent as [a|]; [|reflexivity].
  unfold execute_task_try. now rewrite Ht.
Qed.

Lemma task_answer_ignores_user_id_witness :
  serve Sample.no_object Sample.no_errors Sample.no_pages (Some Sample.echo_agent) POST "/task"
    (JObj [("task", JStr "Convert 500 USD to EUR")]) =
  serve Sample.no_object Sample.no_errors Sample.no_pages (Some Sample.echo_agent) POST "/task"
    Sample.convert_request.
Proof.
  exact (task_answer_ignores_user_id Sample.no_object Sample.no_errors Sample.no_pages
           (Some Sample.echo_agent)
           (JObj [("task", JStr "Convert 500 USD to EUR")]) Sample.convert_request
           _ _ eq_refl eq_refl eq_refl).
Defined.

(** X14. Discovery does not wait for the agent: [GET /] and the agent card
    are answered with status 200 and the same document in every state of
    the agent, also while [GET /health] answers 503, and whatever the
    request body. *)
Theorem discovery_ignores_agent_state {N pyobj : Type}
    (pydantic_str : pyobj -> outcome string) (validation_errors : json N -> json N)
    (framework_answer : method -> string -> json N -> http_response N)
    (travel_agent : option ChatAgent) (body : json N) :
  serve pydantic_str validation_errors framework_answer travel_agent GET "/.well-known/agent.json" body =
    serve pydantic_str validation_errors framework_answer None GET "/.well-known/agent.json" JNull /\
  serve pydantic_str validation_errors framework_answer travel_agent GET "/" body =
    serve pydantic_str validation_errors framework_answer None GET "/" JNull /\
  status (serve pydantic_str validation_errors framework_answer None GET "/.well-known/agent.json" JNull)
    = 200 /\
  status (serve pydantic_str validation_errors framework_answer None GET "/" JNull) = 200 /\
  status (serve pydantic_str validation_errors framework_answer None GET "/health" JNull) = 503.
Proof. repeat split. Qed.

(** ** Service Bus scripts: full runs, failures, peeking *)

Section ReceiverFurther.

Variable print_ok : string -> bool.
Variable complete_ok : ServiceBusMessage -> bool.

Lemma bind_no_completion {A B : Type} (m : io A) (f : A -> io B) :
  no_completion (fst m) ->
  (forall a, no_completion (fst (f a))) ->
  no_completion (fst (m ≫= f)).
Proof.
  intros Hm Hf. destruct m as [t [a|e]]; cbn [mbind io_bind fst] in *; [|exact Hm].
  specialize (Hf a). destruct (f a) as [t' r]. cbn [fst] in *.
  now apply no_completion_app.
Qed.

Lemma io_for_no_completion {A : Type} (body : A -> io ()) (l : list A) :
  (forall x, no_completion (fst (body x))) ->
  no_completion (fst (io_for body l)).
Proof.
  intros Hbody. induction l as [|x l IH]; cbn [io_for].
  - apply no_completion_nil.
  - apply bind_no_completion; [apply Hbody | intros _; exact IH].
Qed.

Lemma io_for_print_all (lines : list string) :
  (forall line, line ∈ lines -> print_ok line = true) ->
  io_for (print print_ok) lines = (map Printed lines, Ret ()).
Proof.
  intros Hall.
  destruct (io_for_print_cases print_ok lines)
    as [(_ & H) | (t & e & _ & _ & line & Hin & Hbad)]; [exact H|].
  rewrite (Hall line Hin) in Hbad. discriminate.
Qed.

(** What the loop of [receive_responses] leaves in the trace for a message
    it gets through. *)
Lemma receive_loop_all (total : Z) (ims : list (Z * ServiceBusMessage)) :
  (forall line, print_ok line = true) ->
  (forall im, im ∈ ims -> complete_ok (snd im) = true) ->
  io_for (show_and_complete print_ok complete_ok total) ims =
    (flat_map (fun im => map Printed (display_lines total (fst im) (snd im)) ++
                         [Completed (fst im)]) ims, Ret ()).
Proof.
  intros Hp Hc. induction ims as [|[i msg] ims IH]; [reflexivity|].
  cbn [io_for flat_map fst snd].
  destruct (show_and_complete_cases print_ok complete_ok total i msg)
    as [(_ & _ & ->) | (t & e & _ & _ & [(line & _ & Hbad) | Hbad])].
  - cbn [mbind io_bind].
    rewrite IH by (intros im Him; apply Hc; now right). reflexivity.
  - rewrite Hp in Hbad. discriminate.
  - pose proof (Hc (i, msg) (list_elem_of_here _ _)) as Hgood.
    cbn [snd] in Hgood. congruence.
Qed.

(** A turn that cannot display or complete its message ends the loop: it
    raises, and only messages before it have been completed. *)
Lemma receive_loop_failure (total : Z) (pre post : list (Z * ServiceBusMessage))
    (i : Z) (msg : ServiceBusMessage) :
  (exists line, line ∈ display_lines total i msg /\ print_ok line = false) \/
  complete_ok msg = false ->
  (exists e, snd (io_for (show_and_complete print_ok complete_ok total)
                    (pre ++ (i, msg) :: post)) = Raise e) /\
  (forall j, Completed j ∈ fst (io_for (show_and_complete print_ok complete_ok total)
                                  (pre ++ (i, msg) :: post)) ->
             exists m, (j, m) ∈ pre).
Proof.
  intros Hfail. induction pre as [|[k mk] pre IH]; cbn [app io_for].
  - destruct (show_and_complete_cases print_ok complete_ok total i msg)
      as [(Hall & Hc & _) | (t & e & -> & Hn & _)].
    + exfalso. destruct Hfail as [(line & Hin & Hbad) | Hbad]; [|congruence].
      rewrite Forall_forall in Hall. specialize (Hall line Hin). congruence.
    + cbn [mbind io_bind fst snd]. split; [eauto|].
      intros j Hj. exfalso. exact (Hn j Hj).
  - destruct (show_and_complete_cases print_ok complete_ok total k mk)
      as [(_ & _ & ->) | (t & e & -> & Hn & _)].
    + cbn [mbind io_bind].
      destruct (io_for (show_and_complete print_ok complete_ok total)
                  (pre ++ (i, msg) :: post)) as [t2 r2].
      cbn [fst snd] in *. split; [apply IH|].
      intros j [[Hj | Hj]%elem_of_app | Hj]%elem_of_app.
      * exfalso. exact (no_completion_printed _ j Hj).
      * apply list_elem_of_singleton in Hj as [= ->]. exists mk. left.
      * destruct (proj2 IH j Hj) as [m Hm]. exists m. now right.
    + cbn [mbind io_bind fst snd]. split; [eauto|].
      intros j Hj. exfalso. exact (Hn j Hj).
Qed.

End ReceiverFurther.

Lemma enumerate_split_lt {A : Type} (l : list A) (start i : Z) (x : A)
    (pre post : list (Z * A)) :
  enumerate start l = pre ++ (i, x) :: post ->
  forall j y, (j, y) ∈ pre -> j < i.
Proof.
  revert start l. induction pre as [|p pre IH]; intros start l E j y Hin.
  - inversion Hin.
  - destruct l as [|z l]; [discriminate|]. cbn [enumerate app] in E.
    injection E as <- E.
    assert (start + 1 <= i) as Hi.
    { assert ((i, x) ∈ enumerate (start + 1) l) as H
        by (rewrite E; apply elem_of_app; right; left).
      apply enumerate_lookup in H as (k & _ & ->). lia. }
    apply elem_of_cons in Hin as [[= -> ->] | Hin]; [lia|].
    exact (IH _ _ E j y Hin).
Qed.

(** The completions in the trace of [receive_responses] are those of its
    loop. *)
Lemma receive_responses_completions (print_ok : string -> bool)
    (complete_ok : ServiceBusMessage -> bool) (count timeout : Z)
    (messages : list ServiceBusMessage) (j : Z) :
  Completed j ∈ fst (receive_responses print_ok complete_ok count timeout (Ret messages)) ->
  Completed j ∈
    fst (io_for (show_and_complete print_ok complete_ok (Z.of_nat (length messages)))
           (enumerate 1 messages)).
Proof.
  unfold receive_responses. rewrite print_then_trace.
  match goal with |- context [print_ok ?w] => destruct (print_ok w) end.
  2: { intros H. inversion H. }
  intros [[=] | H]%elem_of_cons. revert H. cbn [mbind io_bind app].
  destruct messages as [|m ms].
  - pose proof (print_trace print_ok "⏰ No responses received within timeout period") as Hp.
    destruct (print print_ok "⏰ No responses received within timeout period") as [t r].
    cbn [fst app] in *. intros H. exfalso. exact (Hp j H).
  - set (messages := m :: ms).
    destruct (io_for (show_and_complete print_ok complete_ok (Z.of_nat (length messages)))
                (enumerate 1 messages)) as [t [[]|e]]; cbn [mbind io_bind fst].
    + match goal with |- context [print print_ok ?s] => set (S := s) end.
      pose proof (print_trace print_ok S) as Hp.
      destruct (print print_ok S) as [t' r]. cbn [fst] in *.
      intros [H | H]%elem_of_app; [exact H|]. exfalso. exact (Hp j H).
    + auto.
Qed.

Lemma filter_none {A : Type} (f : A -> bool) (l : list A) :
  (forall x, x ∈ l -> f x = false) -> List.filter f l = [].
Proof.
  induction l as [|x l IH]; intros H; [reflexivity|]. cbn [List.filter].
  rewrite (H x) by left. apply IH. intros y Hy. apply H. now right.
Qed.

Lemma filter_every {A : Type} (f : A -> bool) (l : list A) :
  (forall x, x ∈ l -> f x = true) -> List.filter f l = l.
Proof.
  induction l as [|x l IH]; intros H; [reflexivity|]. cbn [List.filter].
  rewrite (H x) by left. f_equal. apply IH. intros y Hy. apply H. now right.
Qed.

(** X15. When standard output takes every line and the broker accepts every
    completion, [receive_responses] displays and completes the messages of a
    non-empty batch one after the other, in order, prints its summary and
    returns: no message of the batch is left for redelivery. *)
Theorem receive_responses_completes_every_message
    (print_ok : string -> bool) (complete_ok : ServiceBusMessage -> bool)
    (count timeout : Z) (messages : list ServiceBusMessage) :
  (forall line, print_ok line = true) ->
  (forall msg, msg ∈ messages -> complete_ok msg = true) ->
  messages <> [] ->
  let total := Z.of_nat (length messages) in
  let trace :=
    Printed ("📥 Waiting for up to " +:+ str_int count +:+ " response(s) (timeout: " +:+
             str_int timeout +:+ "s)..." +:+ NL) ::
    flat_map (fun im => map Printed (display_lines total (fst im) (snd im)) ++
                        [Completed (fst im)]) (enumerate 1 messages) ++
    [Printed ("✅ Received and processed " +:+ str_int total +:+ " response(s)")] in
  receive_responses print_ok complete_ok count timeout (Ret messages) = (trace, Ret ()) /\
  unsettled messages trace = [].
Proof.
  intros Hp Hc Hne total trace. split.
  - unfold receive_responses, print. rewrite !Hp. cbn [mbind io_bind app].
    destruct messages as [|m ms]; [contradiction|].
    fold total.
    assert (forall im, im ∈ enumerate 1 (m :: ms) -> complete_ok (snd im) = true) as Hc'.
    { intros [i msg] (k & Hk & _)%enumerate_lookup. apply Hc.
      now apply list_elem_of_lookup_2 in Hk. }
    rewrite (receive_loop_all print_ok complete_ok total _ Hp Hc').
    cbn [mbind io_bind]. rewrite Hp. reflexivity.
  - unfold unsettled. apply filter_none. intros [i msg] Hin. cbn [fst].
    apply negb_false_iff, completed_in_spec. subst trace. right.
    apply elem_of_app. left. apply list_elem_of_In, in_flat_map.
    exists (i, msg). split; [now apply list_elem_of_In|].
    apply in_or_app. right. left. reflexivity.
Qed.

Lemma receive_responses_completes_every_message_witness :
  unsettled [Sample.response_message; Sample.bare_message]
    (fst (receive_responses (fun _ => true) (fun _ => true) 2 30
            (Ret [Sample.response_message; Sample.bare_message]))) = [] /\
  snd (receive_responses (fun _ => true) (fun _ => true) 2 30
         (Ret [Sample.response_message; Sample.bare_message])) = Ret ().
Proof.
  destruct (receive_responses_completes_every_message (fun _ => true) (fun _ => true) 2 30
              [Sample.response_message; Sample.bare_message]
              (fun _ => eq_refl) (fun _ _ => eq_refl) ltac:(discriminate)) as [E U].
  rewrite E. cbn [fst snd]. split; [exact U | reflexivity].
Defined.

(** X16. A message that cannot be displayed or completed ends the batch:
    neither it nor any later message of the batch is completed, whatever
    would have happened to the later ones; they all stay with the broker. *)
Theorem failure_ends_the_batch
    (print_ok : string -> bool) (complete_ok : ServiceBusMessage -> bool)
    (count timeout : Z) (messages : list ServiceBusMessage)
    (i : Z) (msg : ServiceBusMessage) :
  let trace :=
    fst (receive_responses print_ok complete_ok count timeout (Ret messages)) in
  (i, msg) ∈ enumerate 1 messages ->
  ((exists line,
      line ∈ display_lines (Z.of_nat (length messages)) i msg /\
      print_ok line = false) \/
   complete_ok msg = false) ->
  forall j later,
    (j, later) ∈ enumerate 1 messages -> i <= j ->
    (Completed j ∉ trace) /\ ((j, later) ∈ unsettled messages trace).
Proof.
  intros trace Hin Hfail j later Hj Hij.
  assert (Completed j ∉ trace) as Hnot.
  { intros Hc. apply receive_responses_completions in Hc.
    destruct (list_elem_of_split _ _ Hin) as (pre & post & E). rewrite E in Hc.
    destruct (receive_loop_failure print_ok complete_ok _ pre post i msg Hfail) as [_ H].
    destruct (H j Hc) as [m Hm].
    pose proof (enumerate_split_lt _ _ _ _ _ _ E j m Hm). lia. }
  split; [exact Hnot|].
  unfold unsettled. apply list_elem_of_In, filter_In.
  split; [now apply list_elem_of_In|]. cbn [fst].
  destruct (completed_in trace j) eqn:Hc; [|reflexivity].
  apply completed_in_spec in Hc. contradiction.
Qed.

Lemma failure_ends_the_batch_witness :
  let messages := [Sample.bare_message; Sample.response_message] in
  (2, Sample.response_message) ∈
    unsettled messages
      (fst (receive_responses Sample.broken_stdout (fun _ => true) 2 30 (Ret messages))).
Proof.
  intros messages.
  refine (proj2 (failure_ends_the_batch Sample.broken_stdout (fun _ => true) 2 30
                   messages 1 Sample.bare_message _ _ 2 Sample.response_message _ _)).
  - left.
  - left. exists "User ID:       unknown". split; [|reflexivity].
    vm_compute. do 3 right. left.
  - right. left.
  - intros H; discriminate H.
Defined.

(** X17. [peek_responses] never completes a message: whatever is peeked
    and whatever happens to its output, its trace holds no completion, so
    every peeked message stays in the queue. *)
Theorem peek_responses_completes_nothing
    (print_ok : string -> bool) (count : Z)
    (peeked : outcome (list ServiceBusMessage)) :
  let trace := fst (peek_responses print_ok count peeked) in
  (forall i, Completed i ∉ trace) /\
  (forall messages, unsettled messages trace = enumerate 1 messages).
Proof.
  intros trace.
  assert (no_completion trace) as Hn.
  { subst trace. unfold peek_responses.
    apply bind_no_completion; [apply print_trace|]. intros _.
    apply bind_no_completion; [apply no_completion_nil|]. intros messages.
    destruct messages as [|m ms]; [apply print_trace|].
    apply bind_no_completion; [|intros _; apply print_trace].
    apply io_for_no_completion. intros im.
    apply io_for_no_completion. intros line. apply print_trace. }
  split; [exact Hn|].
  intros messages. unfold unsettled. apply filter_every. intros [i m] _. cbn [fst].
  apply negb_true_iff. destruct (completed_in trace i) eqn:Hc; [|reflexivity].
  apply completed_in_spec in Hc. exfalso. exact (Hn i Hc).
Qed.

(** X18. [receive_response_from_queue] handles the first message of the
    batch only. The one completion it can make is that of message 1, made
    after all its lines were printed, and then the call returns that
    message's body; it returns a body only in that case, and returns [None]
    only when nothing was received, having completed nothing. *)
Theorem receive_response_first_message_only
    (print_ok : string -> bool) (complete_ok : ServiceBusMessage -> bool)
    (timeout : Z) (received : outcome (list ServiceBusMessage)) :
  let out := receive_response_from_queue print_ok complete_ok timeout received in
  (forall i,
     Completed i ∈ fst out ->
     i = 1 /\
     exists msg rest pre,
       received = Ret (msg :: rest) /\
       fst out = pre ++ map Printed (received_lines msg) ++ [Completed 1] /\
       snd out = Ret (Some (body msg))) /\
  (forall s,
     snd out = Ret (Some s) ->
     exists msg rest,
       received = Ret (msg :: rest) /\ s = body msg /\ Completed 1 ∈ fst out) /\
  (snd out = Ret None -> received = Ret [] /\ forall i, Completed i ∉ fst out).
Proof.
  cbv zeta. unfold receive_response_from_queue.
  match goal with |- context [print print_ok ?w ≫= _] => set (W := w) end.
  set (P := io_for (print print_ok)). unfold print.
  destruct (print_ok W); cbn [mbind io_bind fst snd].
  2: { split; [|split]; [intros i H; inversion H | discriminate | discriminate]. }
  destruct received as [[|msg rest]|e]; cbn [mbind io_bind fst snd app].
  - destruct (print_ok "⏰ Timeout - no response received");
      cbn [mbind io_bind fst snd app mret io_ret].
    + split; [|split]; [| discriminate |].
      * intros i H. exfalso.
        exact (no_completion_printed [W; "⏰ Timeout - no response received"] i H).
      * intros _. split; [reflexivity|].
        exact (no_completion_printed [W; "⏰ Timeout - no response received"]).
    + split; [|split]; [| discriminate | discriminate].
      intros i H. exfalso. exact (no_completion_printed [W] i H).
  - subst P.
    destruct (io_for_print_cases print_ok (received_lines msg))
      as [(_ & ->) | (t & e & -> & Hn & _)]; cbn [mbind io_bind fst snd app].
    + unfold complete_message. destruct (complete_ok msg);
        cbn [mbind io_bind fst snd app mret io_ret].
      * rewrite ?app_nil_r. split; [|split]; [| | discriminate].
        -- intros i [[=] | [Hp | Hc%list_elem_of_singleton]%elem_of_app]%elem_of_cons.
           ++ exfalso. exact (no_completion_printed _ i Hp).
           ++ injection Hc as ->. split; [reflexivity|].
              exists msg, rest, [Printed W]. auto.
        -- intros s [= <-]. exists msg, rest. repeat split.
           right. apply elem_of_app. right. left.
      * rewrite ?app_nil_r. split; [|split]; [| discriminate | discriminate].
        intros i [[=] | Hp]%elem_of_cons.
        exfalso. exact (no_completion_printed _ i Hp).
    + split; [|split]; [| discriminate | discriminate].
      intros i [[=] | Hp]%elem_of_cons. exfalso. exact (Hn i Hp).
  - split; [|split]; [| discriminate | discriminate].
    intros i H. exfalso. exact (no_completion_printed [W] i H).
Qed.

Lemma receive_response_first_message_only_witness :
  let out :=
    receive_response_from_queue (fun _ => true) (fun _ => true) 10
      (Ret [Sample.response_message; Sample.bare_message]) in
  snd out = Ret (Some "500 USD = 462.35 EUR") /\
  (Completed 1 ∈ fst out) /\
  unsettled [Sample.response_message; Sample.bare_message] (fst out) =
    [(2, Sample.bare_message)].
Proof.
  intros out.
  destruct (receive_response_first_message_only (fun _ => true) (fun _ => true) 10
              (Ret [Sample.response_message; Sample.bare_message]))
    as (_ & Hsome & _).
  fold out in Hsome.
  destruct (Hsome "500 USD = 462.35 EUR" eq_refl) as (msg & rest & _ & _ & Hc).
  split; [reflexivity|]. split; [exact Hc | reflexivity].
Defined.

(** X19. A body without a string [task] never reaches [execute_task]: it is
    answered 422 in every state of the agent, also when the agent is not
    initialised and an accepted body would get 503. *)
Theorem body_without_task_is_rejected {N pyobj : Type}
    (pydantic_str : pyobj -> outcome string) (validation_errors : json N -> json N)
    (framework_answer : method -> string -> json N -> http_response N)
    (travel_agent : option ChatAgent) (body : json N) :
  (forall t, field "task" body <> Some (JStr t)) ->
  parse_TaskRequest body = None /\
  serve pydantic_str validation_errors framework_answer travel_agent POST "/task" body =
    HttpResponse 422 (JObj [("detail", validation_errors body)]).
Proof.
  intros Hno.
  assert (parse_TaskRequest body = None) as Hp.
  { unfold parse_TaskRequest, field in *. destruct body as [| | | | |items]; try reflexivity.
    destruct (dict_get "task" items) as [[| | |t| |]|]; try reflexivity.
    exfalso. now apply (Hno t). }
  split; [exact Hp|]. now apply post_task_rejected.
Qed.

Lemma body_without_task_is_rejected_witness :
  status (serve Sample.no_object Sample.no_errors Sample.no_pages None POST "/task"
            (JObj [("user_id", JStr "u1")])) = 422 /\
  status (serve Sample.no_object Sample.no_errors Sample.no_pages (Some Sample.echo_agent) POST "/task"
            (JObj [("task", JNull)])) = 422.
Proof.
  split.
  - rewrite (proj2 (body_without_task_is_rejected Sample.no_object Sample.no_errors Sample.no_pages None
                      (JObj [("user_id", JStr "u1")]) ltac:(discriminate))).
    reflexivity.
  - rewrite (proj2 (body_without_task_is_rejected Sample.no_object Sample.no_errors Sample.no_pages
                      (Some Sample.echo_agent) (JObj [("task", JNull)])
                      ltac:(discriminate))).
    reflexivity.
Defined.
